(** * Github_Plugin: pull-request aggregation, cache and ordering pipeline

    A shallow embedding of [src/github.py], [src/utils.py] and the
    [GithubController] / [KeywordQueryEventListener] classes of [main.py],
    followed by the properties of the ordering pipeline, the one-minute
    cache, the fetch and the keyword filter. *)

From Stdlib Require Import ZArith Lia.
From stdpp Require Import base option list strings pretty sorting.

Local Set Warnings "-register-all".
Local Open Scope string_scope.
Local Open Scope list_scope.
Local Open Scope Z_scope.

(** ** Values shared by the three source files *)

(** A [datetime] is a point on a discrete time line with microsecond
    resolution: it is kept as the number of microseconds it stands for, so
    that comparison and subtraction of datetimes are those of [Z]. *)
Definition datetime := Z.

(** [timedelta(minutes=1)], in microseconds. *)
Definition timedelta_minutes_1 : Z := 60000000.

(** [@dataclass class PullRequest] of [src/github.py]. *)
Record PullRequest := mkPullRequest {
  repo : string;
  title : string;
  url : string;
  is_draft : bool;
  created_by : string;
  created_at : datetime;
  approves : list string
}.

(** ** [list.sort]

    [list.sort(key=..., reverse=...)] is a stable sort on the keys, compared
    with [<] only.  The keys used by the program are integers and datetimes,
    both read in [Z].  Stable insertion from the right gives the one
    possible result of a stable sort; [reverse=True] is what CPython does:
    reverse the list, sort it, reverse it again, which keeps records with
    equal keys in their original order. *)
Section ListSort.
Context {A : Type} (key : A → Z).

(** [x] comes from further left than every element of [l]: it stays in
    front of the elements whose key is equal to its own. *)
Fixpoint insert_stable (x : A) (l : list A) : list A :=
  match l with
  | [] => [x]
  | y :: l' =>
      if key y <? key x then y :: insert_stable x l' else x :: y :: l'
  end.

Fixpoint sort_stable (l : list A) : list A :=
  match l with
  | [] => []
  | x :: l' => insert_stable x (sort_stable l')
  end.

Definition list_sort (reverse : bool) (l : list A) : list A :=
  if reverse then rev (sort_stable (rev l)) else sort_stable l.

(** The two orders a sorted list is described with. *)
Definition ascending (a b : A) : Prop := key a <= key b.
Definition descending (a b : A) : Prop := key b <= key a.
End ListSort.

(** ** [src/utils.py] *)
Module utils.

(** [len(pr.approves) >= 2 or user in pr.approves] *)
Definition pr_is_approved (pr : PullRequest) (user : string) : bool :=
  (2 <=? length (approves pr))%nat
  || existsb (fun a => String.eqb a user) (approves pr).

(** [in_place_filter(array, predicate)] overwrites [array] with the
    elements that satisfy [predicate] and returns the others; the pair is
    (new contents of [array], returned list). *)
Definition in_place_filter {A : Type} (array : list A) (predicate : A → bool)
  : list A * list A :=
  let removed_elements := List.filter (fun x => negb (predicate x)) array in
  (List.filter predicate array, removed_elements).

End utils.

(** ** The ordering pipeline of [GithubController] *)
Module Pipeline.
Import utils.

(** [lambda pr: not pr.is_draft] *)
Definition not_draft (pr : PullRequest) : bool := negb (is_draft pr).

(** [lambda pr: -1 if pr.created_by == self.user else 0] *)
Definition own_key (user : string) (pr : PullRequest) : Z :=
  if String.eqb (created_by pr) user then -1 else 0.

(** The first three statements of [__order_filter_prs]: the contents of
    [prs] just before [in_place_filter] is called. *)
Definition ordered_prs (user : string) (prs : list PullRequest)
  : list PullRequest :=
  let prs := List.filter not_draft prs in
  let prs := list_sort created_at true prs in
  list_sort (own_key user) false prs.

(** [GithubController.__order_filter_prs]: returns [(prs, approved_prs)]. *)
Definition order_filter_prs (user : string) (prs : list PullRequest)
  : list PullRequest * list PullRequest :=
  in_place_filter (ordered_prs user prs)
    (fun pr => negb (pr_is_approved pr user)).

Definition is_own (user : string) (pr : PullRequest) : bool :=
  String.eqb (created_by pr) user.

End Pipeline.

(** ** Payloads, the network and the libraries the program calls *)

(** What [Response.json()] returns.  [JNull] is Python's [None]; an object
    is kept as its items in order, with distinct keys. *)
Inductive Json :=
| JNull
| JBool (b : bool)
| JNum (n : Z)
| JStr (s : string)
| JArr (items : list Json)
| JObj (fields : list (string * Json)).

(** Lookup in an association list kept in insertion order. *)
Fixpoint assoc {V : Type} (k : string) (d : list (string * V)) : option V :=
  match d with
  | [] => None
  | (k', v) :: d' => if String.eqb k' k then Some v else assoc k d'
  end.

(** [j[k]] for a string [k]: only a [dict] that has the key answers; the
    other values raise [KeyError] or [TypeError], read as [None]. *)
Definition getitem (j : Json) (k : string) : option Json :=
  match j with
  | JObj fields => assoc k fields
  | _ => None
  end.

Fixpoint chars (s : string) : list Json :=
  match s with
  | EmptyString => []
  | String a s' => JStr (String a EmptyString) :: chars s'
  end.

(** What [for x in j] (and so [map(f, j)]) goes through: the elements of a
    list, the keys of a dict, the characters of a string; the other values
    are not iterable. *)
Definition iter_json (j : Json) : option (list Json) :=
  match j with
  | JArr items => Some items
  | JObj fields => Some (map (fun kv => JStr kv.1) fields)
  | JStr s => Some (chars s)
  | _ => None
  end.

(** Fields are read at the types the [PullRequest] dataclass declares; a
    payload with a value of another type in such a field is read as a
    payload on which the step raises. *)
Definition as_str (j : Json) : option string :=
  match j with JStr s => Some s | _ => None end.

Definition as_bool (j : Json) : option bool :=
  match j with JBool b => Some b | _ => None end.

(** [r["state"] == "APPROVED"] *)
Definition state_is_approved (state : Json) : bool :=
  match state with JStr s => String.eqb s "APPROVED" | _ => false end.

(** [r] is a review of [reviewer] in state [state], whatever else it holds. *)
Definition describes_review (r : Json) (reviewer state : string) : Prop :=
  getitem r "state" = Some (JStr state)
  ∧ (user ← getitem r "user"; getitem user "login") = Some (JStr reviewer).

(** [datetime.strptime(text, format)]; [None] when it raises. *)
Class Strptime := strptime : string → string → option datetime.

(** [re.search(pattern, text, re.IGNORECASE)] read as a truth value (a match
    object is true, [None] is false); [None] here when it raises. *)
Class ReSearch := re_search_ignorecase : string → string → option bool.

(** One refresh sees one state of the remote API and one interleaving of
    its worker processes.
    - [requests_get_json u]: the value of [requests.get(u, headers).json()],
      [None] when the request or the decoding raises;
    - [completion]: for the processes started in one fan-out, listed in
      start order, the order in which they reach their write to the shared
      dictionary. *)
Record World := mkWorld {
  requests_get_json : string → option Json;
  completion : ∀ A : Type, list A → list A
}.

(** ** A [dict] shared between processes: items in insertion order *)
Fixpoint dict_setitem {V : Type} (k : string) (v : V) (d : list (string * V))
  : list (string * V) :=
  match d with
  | [] => [(k, v)]
  | (k', v') :: d' =>
      if String.eqb k' k then (k, v) :: d' else (k', v') :: dict_setitem k v d'
  end.

Definition dict_values {V : Type} (d : list (string * V)) : list V :=
  map snd d.

(** [Process(target=..., args=(shared, t))] for every task, [start()] on
    all, [join()] on all.  A process whose target raises ends with a
    non-zero exit code that [join()] does not look at: it leaves the shared
    dictionary as it found it.  A target that returns has made its one
    write [shared[k] = v]. *)
Definition run_processes {T V : Type} (w : World)
    (target : T → option (string * V)) (tasks : list T) : list (string * V) :=
  foldl (fun shared t =>
           match target t with
           | Some (k, v) => dict_setitem k v shared
           | None => shared
           end)
        [] (completion w _ tasks).

(** ** [src/github.py] *)

(** [class GithubError(Exception)] *)
Record GithubError := mkGithubError {
  error_title : string;
  error_description : string
}.

Module Github.
Section WithLibraries.
Context `{!Strptime}.

Definition DATE_FORMAT : string := "%Y-%m-%dT%H:%M:%SZ".

(** The fields of a [Github] object that change or differ between
    objects; the request headers are constant and part of what [World]
    answers to. *)
Record t := mk {
  GITHUB_URL : string;
  repos : Json
}.

(** [Github.__init__] *)
Definition init (hostname org : string) : t :=
  {| GITHUB_URL := "https://" +:+ hostname +:+ "/api/v3/orgs/" +:+ org +:+ "/repos";
     repos := JNull |}.

(** [f"{x}/suffix"] is requested: of the JSON values only a string can
    format to a URL [requests] accepts. *)
Definition get_under (w : World) (x : Json) (suffix : string) : option Json :=
  u ← as_str x; requests_get_json w (u +:+ suffix).

(** [list(map(lambda r: r["user"]["login"],
              filter(lambda r: r["state"] == "APPROVED", reviews)))]:
    both are lazy, the reviews are taken one at a time. *)
Fixpoint approved_logins (reviews : list Json) : option (list string) :=
  match reviews with
  | [] => Some []
  | r :: rest =>
      state ← getitem r "state";
      if state_is_approved state then
        user ← getitem r "user";
        login ← getitem user "login";
        login ← as_str login;
        logins ← approved_logins rest;
        Some (login :: logins)
      else approved_logins rest
  end.

(** [Github.__get_pr_approves] *)
Definition get_pr_approves (w : World) (pr_url : Json) : option (list string) :=
  reviews ← get_under w pr_url "/reviews";
  iter_json reviews ≫= approved_logins.

(** [Github.__build_pr]: the key and the record written to the shared
    dictionary, [None] when the process dies before the write. *)
Definition build_pr (w : World) (pr : Json) : option (string * PullRequest) :=
  head ← getitem pr "head";
  head_repo ← getitem head "repo";
  repo ← getitem head_repo "name";
  repo ← as_str repo;
  title ← getitem pr "title";
  title ← as_str title;
  url ← getitem pr "html_url";
  url ← as_str url;
  is_draft ← getitem pr "draft";
  is_draft ← as_bool is_draft;
  user ← getitem pr "user";
  created_by ← getitem user "login";
  created_by ← as_str created_by;
  created_at ← getitem pr "created_at";
  created_at ← as_str created_at;
  created_at ← strptime created_at DATE_FORMAT;
  pr_url ← getitem pr "url";
  approves ← get_pr_approves w pr_url;
  key ← as_str pr_url;
  Some (key, mkPullRequest repo title url is_draft created_by created_at approves).

(** [Github.__fetch_prs], run in a process of its own per repository. *)
Definition fetch_prs (w : World) (repo_url : Json)
  : option (string * list PullRequest) :=
  prs ← get_under w repo_url "/pulls";
  payloads ← iter_json prs;
  let result_matrix := run_processes w (build_pr w) payloads in
  key ← as_str repo_url;
  Some (key, dict_values result_matrix).

Definition error : GithubError :=
  mkGithubError "Error getting Pull Requests"
                "Check you connectivity, github url and access token".

(** The value of [self.repos] after
    [if self.repos is None: self.repos = requests.get(...).json()],
    [None] when the request raises. *)
Definition listing (w : World) (g : t) : option Json :=
  match repos g with
  | JNull => requests_get_json w (GITHUB_URL g)
  | r => Some r
  end.

(** [Github.get_prs]: the object afterwards, and the exception raised
    ([inl]) or the list returned ([inr]). *)
Definition get_prs (w : World) (g : t) : t * (GithubError + list PullRequest) :=
  match listing w g with
  | None => (g, inl error)
  | Some rs =>
      let g' := {| GITHUB_URL := GITHUB_URL g; repos := rs |} in
      match iter_json rs ≫= mapM (fun r => getitem r "url") with
      | None => (g', inl error)
      | Some urls =>
          let result_matrix := run_processes w (fetch_prs w) urls in
          (g', inr (concat (dict_values result_matrix)))
      end
  end.

End WithLibraries.
End Github.

(** ** [main.py]: what the launcher is given to display *)

Inductive PrType := OPEN | APPROVED.

Inductive CustomActionEvent := MULTISELECT | APPROVED_PRS.

Inductive Icon :=
| GITHUB_LOGO
| GITHUB_APPROVED_LOGO
| GITHUB_USER_LOGO
| GITHUB_USER_APPROVED_LOGO
| ERROR_ICON.

(** [ExtensionCustomAction] carries the event, the [multiselect_value] the
    event constant holds when the item is built, and the [pr_url] entry of
    its data when there is one. *)
Inductive Action :=
| DoNothingAction
| OpenUrlAction (target : string)
| ExtensionCustomAction (event : CustomActionEvent)
                        (multiselect_value : option PrType)
                        (pr_url : option string).

Record ExtensionResultItem := mkItem {
  name : string;
  description : string;
  icon : Icon;
  on_enter : Action;
  on_alt_enter : option Action
}.

Definition newline : string := String (Ascii.ascii_of_nat 10) EmptyString.

(** ** [class GithubController] *)
Module GithubController.
Section WithLibraries.
Context `{!Strptime}.

Definition snapshot : Type := list PullRequest * list PullRequest.

Record t := mk {
  user : string;
  last_request : option (datetime * snapshot);
  github_client : Github.t
}.

(** [GithubController.__init__] *)
Definition init (hostname org access_token user : string) : t :=
  {| user := user; last_request := None;
     github_client := Github.init hostname org |}.

(** What a call leaves behind and gives back: the controller afterwards,
    the exception raised ([inl]) or the pair returned ([inr]), and how
    many times [self.github_client.get_prs()] was called. *)
Record outcome := mkOutcome {
  after : t;
  result : GithubError + snapshot;
  fetches : nat
}.

(** [GithubController.__fetch_prs]; [now] is what [datetime.now()] reads
    when the tuple is stored. *)
Definition fetch_prs (c : t) (w : World) (now : datetime) : outcome :=
  let '(g, r) := Github.get_prs w (github_client c) in
  match r with
  | inl e =>
      {| after := {| user := user c; last_request := last_request c;
                     github_client := g |};
         result := inl e; fetches := 1 |}
  | inr prs =>
      let prs_tuple := Pipeline.order_filter_prs (user c) prs in
      {| after := {| user := user c; last_request := Some (now, prs_tuple);
                     github_client := g |};
         result := inr prs_tuple; fetches := 1 |}
  end.

(** There is no entry, or the entry is at least one minute old at [now]. *)
Definition stale (c : t) (now : datetime) : Prop :=
  match last_request c with
  | Some (fetched_at, _) => timedelta_minutes_1 <= now - fetched_at
  | None => True
  end.

(** [GithubController.__get_prs]; [now] is the reading of the clock in the
    freshness test, [now'] the one [__fetch_prs] makes if it is called. *)
Definition get_prs (c : t) (now : datetime) (w : World) (now' : datetime)
  : outcome :=
  match last_request c with
  | Some (fetched_at, prs_tuple) =>
      if now - fetched_at <? timedelta_minutes_1
      then {| after := c; result := inr prs_tuple; fetches := 0 |}
      else fetch_prs c w now'
  | None => fetch_prs c w now'
  end.

(** [CustomActionEvent.multiselect]: stores the value on the
    [MULTISELECT] constant and returns the constant. *)
Definition multiselect (multiselect_value : PrType)
  : CustomActionEvent * option PrType :=
  (MULTISELECT, Some multiselect_value).

(** The items of the comprehension of [build_pr_items]:
    [for pr in relevant_prs if (True if predicate is None else predicate(pr))].
    A predicate answers [None] when it raises. *)
Fixpoint select (predicate : option (PullRequest → option bool))
    (relevant_prs : list PullRequest) : option (list PullRequest) :=
  match relevant_prs with
  | [] => Some []
  | pr :: rest =>
      keep ← match predicate with
             | None => Some true
             | Some p => p pr
             end;
      kept ← select predicate rest;
      Some (if keep : bool then pr :: kept else kept)
  end.

Definition pr_item (me : string) (pr_type : PrType) (pr : PullRequest)
  : ExtensionResultItem :=
  let icon := match pr_type with APPROVED => GITHUB_APPROVED_LOGO | OPEN => GITHUB_LOGO end in
  let user_icon :=
    match pr_type with APPROVED => GITHUB_USER_APPROVED_LOGO | OPEN => GITHUB_USER_LOGO end in
  let '(event, value) := multiselect pr_type in
  {| name := title pr;
     description := repo pr +:+ newline +:+ url pr;
     icon := if String.eqb (created_by pr) me then user_icon else icon;
     on_enter := OpenUrlAction (url pr);
     on_alt_enter := Some (ExtensionCustomAction event value (Some (url pr))) |}.

(** [GithubController.__build_approved_button] *)
Definition build_approved_button (approved_prs : list PullRequest)
  : ExtensionResultItem :=
  {| name := "Approved Pull Requests";
     description :=
       "View " +:+ pretty (length approved_prs) +:+ " approved Pull Requests";
     icon := GITHUB_APPROVED_LOGO;
     on_enter := ExtensionCustomAction APPROVED_PRS None None;
     on_alt_enter := None |}.

(** The body of [build_pr_items] after [__get_prs] returned. *)
Definition items_of (me : string) (pr_type : PrType)
    (predicate : option (PullRequest → option bool))
    (include_approved_button : bool) (prs : snapshot)
  : option (list ExtensionResultItem) :=
  let '(open_prs, approved_prs) := prs in
  let relevant_prs :=
    match pr_type with APPROVED => approved_prs | OPEN => open_prs end in
  shown ← select predicate relevant_prs;
  let items := map (pr_item me pr_type) shown in
  Some (if include_approved_button && negb (length approved_prs =? 0)%nat
        then (items ++ [build_approved_button approved_prs])%list
        else items).

(** [GithubController.build_pr_items]: the controller afterwards and the
    list returned, [None] when an exception other than [GithubError]
    leaves the method. *)
Definition build_pr_items (c : t) (pr_type : PrType)
    (predicate : option (PullRequest → option bool))
    (include_approved_button : bool)
    (now : datetime) (w : World) (now' : datetime)
  : t * option (list ExtensionResultItem) :=
  let o := get_prs c now w now' in
  match result o with
  | inl e =>
      (after o,
       Some [ {| name := error_title e; description := error_description e;
                 icon := ERROR_ICON; on_enter := DoNothingAction;
                 on_alt_enter := None |} ])
  | inr prs =>
      (after o, items_of (user c) pr_type predicate include_approved_button prs)
  end.

End WithLibraries.
End GithubController.

(** ** [class KeywordQueryEventListener] *)
Module KeywordQueryEventListener.
Section WithLibraries.
Context `{!Strptime} `{!ReSearch}.

(** [lambda pr: re.search(query, pr.title, re.IGNORECASE) or
                re.search(query, pr.repo, re.IGNORECASE)] *)
Definition matches (query : string) (pr : PullRequest) : option bool :=
  in_title ← re_search_ignorecase query (title pr);
  if in_title : bool then Some true else re_search_ignorecase query (repo pr).

(** The truth value of [re.search(query, text, re.IGNORECASE)] when it
    returns. *)
Definition found (query text : string) : bool :=
  match re_search_ignorecase query text with
  | Some true => true
  | _ => false
  end.

Definition title_or_repo_found (query : string) (pr : PullRequest) : bool :=
  found query (title pr) || found query (repo pr).

(** [event.get_query().get_argument(default="")] *)
Definition get_argument (argument : option string) : string :=
  default "" argument.

(** [on_event]: the items handed to [RenderResultListAction]. *)
Definition on_event (argument : option string) (c : GithubController.t)
    (now : datetime) (w : World) (now' : datetime)
  : GithubController.t * option (list ExtensionResultItem) :=
  let query := get_argument argument in
  GithubController.build_pr_items c OPEN (Some (matches query)) true now w now'.

End WithLibraries.
End KeywordQueryEventListener.

(** ** [main.py]: the extension and its other listeners *)

(** What [on_event] does with an event: it returns without a value, an
    exception leaves it, or it returns a [RenderResultListAction]. *)
Inductive Reply (A : Type) :=
| Ignored
| Raised
| Rendered (items : A).
Arguments Ignored {A}.
Arguments Raised {A}.
Arguments Rendered {A} items.

(** The first item [MultiselectEventListener] renders: its [on_enter] is an
    [ActionList]. *)
Record OpenAllItem := mkOpenAllItem {
  open_name : string;
  open_description : string;
  open_icon : Icon;
  open_actions : list Action
}.

(** [class GithubExtension], once [PreferencesEventListener] has set
    [github_controller]; [multiselect_value] is the attribute
    [CustomActionEvent.multiselect] keeps on the [MULTISELECT] constant,
    [None] as long as it was never set. *)
Module GithubExtension.
Section WithLibraries.
Context `{!Strptime}.

Record t := mk {
  github_controller : GithubController.t;
  multiselect_urls : list string;
  multiselect_value : option PrType
}.

(** [extension.github_controller.build_pr_items(...)], with what it does to
    the [MULTISELECT] constant: [multiselect] is called once [__get_prs]
    has returned, and not when [GithubError] was caught. *)
Definition build_pr_items (e : t) (pr_type : PrType)
    (predicate : option (PullRequest → option bool))
    (include_approved_button : bool)
    (now : datetime) (w : World) (now' : datetime)
  : t * option (list ExtensionResultItem) :=
  let c := github_controller e in
  let o := GithubController.get_prs c now w now' in
  let r := GithubController.build_pr_items c pr_type predicate
             include_approved_button now w now' in
  ({| github_controller := r.1;
      multiselect_urls := multiselect_urls e;
      multiselect_value :=
        match GithubController.result o with
        | inl _ => multiselect_value e
        | inr _ => (GithubController.multiselect pr_type).2
        end |},
   r.2).

Definition reply_of {A : Type} (returned : option A) : Reply A :=
  match returned with
  | Some items => Rendered items
  | None => Raised
  end.

(** [KeywordQueryEventListener.on_event], with the fields of the extension
    it writes. *)
Definition keyword_query_on_event `{!ReSearch} (argument : option string) (e : t)
    (now : datetime) (w : World) (now' : datetime)
  : t * Reply (list ExtensionResultItem) :=
  let e := {| github_controller := github_controller e;
              multiselect_urls := [];
              multiselect_value := multiselect_value e |} in
  let query := KeywordQueryEventListener.get_argument argument in
  let r := build_pr_items e OPEN (Some (KeywordQueryEventListener.matches query))
             true now w now' in
  (r.1, reply_of r.2).

End WithLibraries.
End GithubExtension.

(** [class MultiselectEventListener] *)
Module MultiselectEventListener.
Section WithLibraries.
Context `{!Strptime}.

(** [lambda pr: not any(pr.url == url for url in extension.multiselect_urls)] *)
Definition not_selected (multiselect_urls : list string) (pr : PullRequest)
  : option bool :=
  Some (negb (existsb (String.eqb (url pr)) multiselect_urls)).

Definition open_all (multiselect_urls : list string) : OpenAllItem :=
  {| open_name := "Open " +:+ pretty (length multiselect_urls) +:+ " Pull Requests";
     open_description :=
       "⚠️ Do not write a query if you want to open multiple Pull Requests! ⚠️";
     open_icon := GITHUB_APPROVED_LOGO;
     open_actions := map OpenUrlAction multiselect_urls |}.

(** [on_event]; [event] and [pr_url] are [data["event"]] and what [data]
    holds under ["pr_url"], if anything. *)
Definition on_event (event : CustomActionEvent) (pr_url : option string)
    (e : GithubExtension.t) (now : datetime) (w : World) (now' : datetime)
  : GithubExtension.t * Reply (OpenAllItem * list ExtensionResultItem) :=
  match event with
  | MULTISELECT =>
      match pr_url with
      | None => (e, Raised)
      | Some selected =>
          let urls := GithubExtension.multiselect_urls e ++ [selected] in
          let e := {| GithubExtension.github_controller :=
                        GithubExtension.github_controller e;
                      GithubExtension.multiselect_urls := urls;
                      GithubExtension.multiselect_value :=
                        GithubExtension.multiselect_value e |} in
          match GithubExtension.multiselect_value e with
          | None => (e, Raised)
          | Some pr_type =>
              let r := GithubExtension.build_pr_items e pr_type
                         (Some (not_selected urls)) false now w now' in
              (r.1,
               match r.2 with
               | Some items => Rendered (open_all urls, items)
               | None => Raised
               end)
          end
      end
  | _ => (e, Ignored)
  end.

End WithLibraries.
End MultiselectEventListener.

(** [class ApprovedPrsEventListener] *)
Module ApprovedPrsEventListener.
Section WithLibraries.
Context `{!Strptime}.

Definition on_event (event : CustomActionEvent) (e : GithubExtension.t)
    (now : datetime) (w : World) (now' : datetime)
  : GithubExtension.t * Reply (list ExtensionResultItem) :=
  match event with
  | APPROVED_PRS =>
      let r := GithubExtension.build_pr_items e APPROVED None false now w now' in
      (r.1, GithubExtension.reply_of r.2)
  | _ => (e, Ignored)
  end.

End WithLibraries.
End ApprovedPrsEventListener.

(** [class PreferencesEventListener] and
    [class PreferencesUpdateEventListener]; the preferences are a [dict]
    from identifiers to strings. *)
Module PreferencesEventListener.

(** [GithubController(hostname=preferences["hostname"], ...)], [None] when a
    key is missing. *)
Definition controller_of (preferences : list (string * string))
  : option GithubController.t :=
  hostname ← assoc "hostname" preferences;
  org ← assoc "org" preferences;
  access_token ← assoc "access_token" preferences;
  user ← assoc "user" preferences;
  Some (GithubController.init hostname org access_token user).

Definition on_event (preferences : list (string * string))
  : option GithubController.t :=
  controller_of preferences.

End PreferencesEventListener.

Module PreferencesUpdateEventListener.

(** [preferences = extension.preferences.copy();
     preferences.update({event.id: event.new_value})] and the controller
    made from them. *)
Definition on_event (extension_preferences : list (string * string))
    (id new_value : string) : option GithubController.t :=
  let preferences := dict_setitem id new_value extension_preferences in
  PreferencesEventListener.controller_of preferences.

End PreferencesUpdateEventListener.

(** The four icons of the pull-request items, by view and by whether the
    user created the pull request. *)
Definition icon_of (pr_type : PrType) (own : bool) : Icon :=
  match pr_type, own with
  | OPEN, false => GITHUB_LOGO
  | OPEN, true => GITHUB_USER_LOGO
  | APPROVED, false => GITHUB_APPROVED_LOGO
  | APPROVED, true => GITHUB_USER_APPROVED_LOGO
  end.

(** The controllers a session can hold: the one [__init__] makes, and what
    a call of [__get_prs] leaves of one of them. *)
Inductive reachable `{!Strptime} : GithubController.t → Prop :=
| reachable_init hostname org access_token user :
    reachable (GithubController.init hostname org access_token user)
| reachable_get_prs c now w now' :
    reachable c →
    reachable (GithubController.after (GithubController.get_prs c now w now')).

(** ** Data for the examples *)
Module Scenario.

(** *** Instances of the two library functions

    Enough of [strptime] and [re.search] to run the examples: dates in
    the zero-padded form the API sends, and patterns without special
    characters. *)

Definition digit (a : Ascii.ascii) : option Z :=
  let n := Z.of_nat (Ascii.nat_of_ascii a) in
  if (48 <=? n) && (n <=? 57) then Some (n - 48) else None.

Fixpoint number (width : nat) (acc : Z) (s : string) : option (Z * string) :=
  match width with
  | O => Some (acc, s)
  | S width' =>
      match s with
      | String a s' => d ← digit a; number width' (10 * acc + d) s'
      | EmptyString => None
      end
  end.

Definition expect (c s : string) : option string :=
  match c, s with
  | String a EmptyString, String b s' => if Ascii.eqb a b then Some s' else None
  | _, _ => None
  end.

(** Days between 1970-01-01 and a date of the proleptic Gregorian
    calendar. *)
Definition days_from_civil (y m d : Z) : Z :=
  let y := if m <=? 2 then y - 1 else y in
  let era := y / 400 in
  let yoe := y - era * 400 in
  let doy := (153 * (if 2 <? m then m - 3 else m + 9) + 2) / 5 + d - 1 in
  let doe := yoe * 365 + yoe / 4 - yoe / 100 + doy in
  era * 146097 + doe - 719468.

Definition strptime_padded (text format : string) : option datetime :=
  if String.eqb format "%Y-%m-%dT%H:%M:%SZ" then
    '(y, s) ← number 4 0 text; s ← expect "-"s;
    '(m, s) ← number 2 0 s; s ← expect "-"s;
    '(d, s) ← number 2 0 s; s ← expect "T"s;
    '(hh, s) ← number 2 0 s; s ← expect ":"s;
    '(mm, s) ← number 2 0 s; s ← expect ":"s;
    '(ss, s) ← number 2 0 s; s ← expect "Z"s;
    if String.eqb s "" then
      Some ((((days_from_civil y m d * 24 + hh) * 60 + mm) * 60 + ss) * 1000000)
    else None
  else None.

Definition lower (a : Ascii.ascii) : Ascii.ascii :=
  let n := Ascii.nat_of_ascii a in
  if ((65 <=? n) && (n <=? 90))%nat then Ascii.ascii_of_nat (n + 32) else a.

Fixpoint starts_with (pattern text : string) : bool :=
  match pattern, text with
  | EmptyString, _ => true
  | String a p', String b t' => Ascii.eqb (lower a) (lower b) && starts_with p' t'
  | String _ _, EmptyString => false
  end.

Fixpoint occurs_in (pattern text : string) : bool :=
  starts_with pattern text
  || match text with
     | EmptyString => false
     | String _ text' => occurs_in pattern text'
     end.

(** The characters with a meaning of their own in a pattern. *)
Definition special (a : Ascii.ascii) : bool :=
  existsb (Ascii.eqb a) (String.list_ascii_of_string ".^$*+?{}[]\|()").

Definition plain (pattern : string) : bool :=
  forallb (λ a, negb (special a)) (String.list_ascii_of_string pattern).

(** A pattern without special characters is searched as a substring,
    ignoring the case of letters.  Of the other patterns the examples
    use one, ["("], a group that is never closed: compiling it raises
    [re.error].  The instance does not tell the remaining ones apart. *)
Definition literal_search (pattern text : string) : option bool :=
  if plain pattern then Some (occurs_in pattern text) else None.

Definition strptime_instance : Strptime := strptime_padded.
Definition re_search_instance : ReSearch := literal_search.

(** *** The scenario of the specification, with one draft added *)

Definition hour : Z := 3600000000.
Definition t0 : datetime := 1700000000000000.

Definition P1 := mkPullRequest "svc" "Fix login" "https://h/o/svc/pull/1"
                   false "bob" (t0 - hour) [].
Definition P2 := mkPullRequest "svc" "Add cache" "https://h/o/svc/pull/2"
                   false "alice" (t0 - 3 * hour) ["bob"; "carol"].
Definition P3 := mkPullRequest "web" "Bump deps" "https://h/o/web/pull/3"
                   false "alice" (t0 - hour) [].
Definition P4 := mkPullRequest "web" "Docs" "https://h/o/web/pull/4"
                   false "dan" (t0 - 2 * hour) ["alice"].
Definition P5 := mkPullRequest "web" "WIP" "https://h/o/web/pull/5"
                   true "alice" t0 [].

Definition fetched : list PullRequest := [P1; P2; P3; P4; P5].

(** *** A small organisation behind the API *)

Definition api : string := "https://h/api/v3".

Definition repo_payload (name : string) : Json :=
  JObj [("name", JStr name); ("url", JStr (api +:+ "/repos/o/" +:+ name))].

Definition pull_payload (repo_name title number author created : string)
    (draft : bool) : Json :=
  JObj [("url", JStr (api +:+ "/repos/o/" +:+ repo_name +:+ "/pulls/" +:+ number));
        ("html_url", JStr ("https://h/o/" +:+ repo_name +:+ "/pull/" +:+ number));
        ("title", JStr title);
        ("draft", JBool draft);
        ("user", JObj [("login", JStr author)]);
        ("created_at", JStr created);
        ("head", JObj [("repo", JObj [("name", JStr repo_name)])])].

Definition review_payload (reviewer state : string) : Json :=
  JObj [("user", JObj [("login", JStr reviewer)]); ("state", JStr state)].

(** The API answers the listed URLs and raises on every other one;
    processes finish in the order they were started. *)
Definition world_of (answers : list (string * Json)) : World :=
  {| requests_get_json := λ u, assoc u answers;
     completion := λ _ tasks, tasks |}.

(** Two repositories; the pull requests of [svc] cannot be listed. *)
Definition one_repository_down : World :=
  world_of
    [ (api +:+ "/orgs/o/repos", JArr [repo_payload "svc"; repo_payload "web"]);
      (api +:+ "/repos/o/web/pulls",
       JArr [pull_payload "web" "Bump deps" "3" "alice" "2023-11-14T21:13:20Z" false]);
      (api +:+ "/repos/o/web/pulls/3/reviews", JArr []) ].

Definition pull_3 : string := api +:+ "/repos/o/web/pulls/3".

Definition carol_reviews : list (string * string) :=
  [("carol", "APPROVED"); ("carol", "COMMENTED"); ("carol", "APPROVED")].

Definition reviews_payload (reviews : list (string * string)) : Json :=
  JArr (map (λ rv, review_payload rv.1 rv.2) reviews).

(** The pull request [approved_twice] holds. *)
Definition P6 := mkPullRequest "web" "Bump deps" "https://h/o/web/pull/3"
                   false "bob" (t0 - hour) ["carol"; "carol"].

(** One pull request, approved twice by the same reviewer. *)
Definition approved_twice : World :=
  world_of
    [ (api +:+ "/orgs/o/repos", JArr [repo_payload "web"]);
      (api +:+ "/repos/o/web/pulls",
       JArr [pull_payload "web" "Bump deps" "3" "bob" "2023-11-14T21:13:20Z" false]);
      (pull_3 +:+ "/reviews", reviews_payload carol_reviews) ].

(** The listing of the repositories fails. *)
Definition offline : World := world_of [].

Definition client : Github.t := Github.init "h" "o".

Definition controller : GithubController.t :=
  GithubController.init "h" "o" "token" "alice".

(** A controller that fetched the scenario at [t0]. *)
Definition warm_controller : GithubController.t :=
  {| GithubController.user := "alice";
     GithubController.last_request :=
       Some (t0, Pipeline.order_filter_prs "alice" fetched);
     GithubController.github_client := client |}.

End Scenario.

(** ** More data for the examples *)
Module Cases.

(** The API answers the listing of the repositories with an error object. *)
Definition bad_credentials : World :=
  Scenario.world_of
    [ (Scenario.api +:+ "/orgs/o/repos",
       JObj [("message", JStr "Bad credentials")]) ].

(** The pull requests of [web]: one that can be built, and one from a fork
    that was deleted since. *)
Definition web_payloads : list Json :=
  [ Scenario.pull_payload "web" "Bump deps" "3" "alice"
      "2023-11-14T21:13:20Z" false;
    JObj [("url", JStr (Scenario.api +:+ "/repos/o/web/pulls/7"));
          ("title", JStr "Orphan");
          ("head", JObj [("repo", JNull)])] ].

(** Both repositories answer. *)
Definition two_repositories : World :=
  Scenario.world_of
    [ (Scenario.api +:+ "/orgs/o/repos",
       JArr [Scenario.repo_payload "svc"; Scenario.repo_payload "web"]);
      (Scenario.api +:+ "/repos/o/svc/pulls",
       JArr [Scenario.pull_payload "svc" "Fix login" "1" "bob"
               "2023-11-14T21:13:20Z" false]);
      (Scenario.api +:+ "/repos/o/svc/pulls/1/reviews", JArr []);
      (Scenario.api +:+ "/repos/o/web/pulls", JArr web_payloads);
      (Scenario.pull_3 +:+ "/reviews",
       Scenario.reviews_payload [("dave", "COMMENTED")]) ].

Definition preferences : list (string * string) :=
  [("hostname", "h"); ("org", "o"); ("access_token", "token"); ("user", "alice")].

(** An extension whose controller holds the scenario and whose last view
    was the open one; one URL is selected. *)
Definition extension : GithubExtension.t :=
  {| GithubExtension.github_controller := Scenario.warm_controller;
     GithubExtension.multiselect_urls := ["https://h/o/svc/pull/1"];
     GithubExtension.multiselect_value := Some OPEN |}.

End Cases.

(** * Properties *)

(** ** The stable sort *)
Section ListSortFacts.
Context {A : Type} (key : A → Z).

Lemma insert_stable_perm x l : insert_stable key x l ≡ₚ x :: l.
Proof.
  induction l as [|y l IH]; simpl; [done|].
  destruct (key y <? key x); [|done].
  rewrite IH. apply Permutation_swap.
Qed.

Lemma sort_stable_perm l : sort_stable key l ≡ₚ l.
Proof.
  induction l as [|x l IH]; simpl; [done|].
  by rewrite insert_stable_perm, IH.
Qed.

Lemma insert_stable_sorted x l :
  StronglySorted (ascending key) l → StronglySorted (ascending key) (insert_stable key x l).
Proof.
  induction 1 as [|y l Hl IH Hy]; simpl.
  - repeat constructor.
  - destruct (Z.ltb_spec (key y) (key x)) as [Hlt|Hge].
    + constructor; [done|].
      rewrite insert_stable_perm. constructor; [unfold ascending; lia | done].
    + constructor; [by constructor|].
      constructor; [done|].
      eapply Forall_impl; [exact Hy|]. unfold ascending. intros; lia.
Qed.

Lemma sort_stable_sorted l : StronglySorted (ascending key) (sort_stable key l).
Proof.
  induction l as [|x l IH]; simpl; [constructor|].
  by apply insert_stable_sorted.
Qed.

(** Stability: the records of one key keep the order they had. *)
Lemma insert_stable_same_key k x l :
  List.filter (λ a, key a =? k) (insert_stable key x l)
  = List.filter (λ a, key a =? k) (x :: l).
Proof.
  induction l as [|y l IH]; [done|].
  cbn [insert_stable].
  destruct (Z.ltb_spec (key y) (key x)) as [Hlt|Hge]; [|done].
  cbn [List.filter] in *. rewrite IH.
  destruct (Z.eqb_spec (key x) k), (Z.eqb_spec (key y) k); try done; lia.
Qed.

Lemma sort_stable_same_key k l :
  List.filter (λ a, key a =? k) (sort_stable key l)
  = List.filter (λ a, key a =? k) l.
Proof.
  induction l as [|x l IH]; [done|].
  cbn [sort_stable]. rewrite insert_stable_same_key.
  cbn [List.filter]. by rewrite IH.
Qed.

Lemma StronglySorted_rev (R : relation A) l :
  StronglySorted R l → StronglySorted (flip R) (rev l).
Proof.
  induction 1 as [|x l Hl IH Hx]; simpl; [constructor|].
  apply StronglySorted_app. split_and!; [|done|repeat constructor].
  intros a b Ha Hb. apply list_elem_of_singleton in Hb as ->.
  rewrite Forall_forall in Hx. apply Hx.
  by apply list_elem_of_In, in_rev, list_elem_of_In.
Qed.

Lemma list_sort_perm reverse l : list_sort key reverse l ≡ₚ l.
Proof.
  destruct reverse; simpl; [|apply sort_stable_perm].
  by rewrite <- Permutation_rev, sort_stable_perm, <- Permutation_rev.
Qed.

Lemma list_sort_reverse_sorted l :
  StronglySorted (descending key) (list_sort key true l).
Proof. apply (StronglySorted_rev (ascending key)), sort_stable_sorted. Qed.

Lemma list_sort_same_key reverse k l :
  List.filter (λ a, key a =? k) (list_sort key reverse l)
  = List.filter (λ a, key a =? k) l.
Proof.
  destruct reverse; simpl; [|apply sort_stable_same_key].
  by rewrite List.filter_rev, sort_stable_same_key, List.filter_rev, rev_involutive.
Qed.

(** A key with the two values [-1] and [0] moves the [-1] records to the
    front and changes nothing else. *)
Section TwoValues.
Context (front : A → bool) (Hkey : ∀ a, key a = if front a then -1 else 0).

Lemma insert_stable_front x l : front x = true → insert_stable key x l = x :: l.
Proof.
  intros Hx. destruct l as [|y l]; [done|]. simpl.
  destruct (Z.ltb_spec (key y) (key x)) as [Hlt|]; [|done].
  rewrite (Hkey x), Hx, (Hkey y) in Hlt. destruct (front y); lia.
Qed.

Lemma insert_stable_back x l1 l2 :
  front x = false →
  Forall (λ a, front a = true) l1 → Forall (λ a, front a = false) l2 →
  insert_stable key x (l1 ++ l2) = l1 ++ x :: l2.
Proof.
  intros Hx H1 H2. induction H1 as [|y l1 Hy H1 IH]; simpl.
  - destruct H2 as [|y l2 Hy H2]; [done|]. simpl.
    destruct (Z.ltb_spec (key y) (key x)) as [Hlt|]; [|done].
    rewrite (Hkey x), Hx, (Hkey y), Hy in Hlt. lia.
  - destruct (Z.ltb_spec (key y) (key x)) as [|Hge]; [by rewrite IH|].
    rewrite (Hkey x), Hx, (Hkey y), Hy in Hge. lia.
Qed.

Lemma sort_stable_two_values l :
  sort_stable key l
  = List.filter front l ++ List.filter (λ a, negb (front a)) l.
Proof.
  induction l as [|x l IH]; [done|].
  cbn [sort_stable List.filter]. rewrite IH.
  destruct (front x) eqn:Hx; simpl.
  - by apply insert_stable_front.
  - apply insert_stable_back; [done| |].
    + apply Forall_forall. intros a Ha.
      by apply list_elem_of_In, filter_In in Ha as [_ ?].
    + apply Forall_forall. intros a Ha.
      apply list_elem_of_In, filter_In in Ha as [_ ?].
      by apply negb_true_iff.
Qed.
End TwoValues.
End ListSortFacts.

(** ** Filters of lists *)
Section FilterFacts.
Context {A : Type}.
Implicit Types (f : A → bool) (l : list A).

Lemma filter_elem_of f l x : x ∈ List.filter f l ↔ x ∈ l ∧ f x = true.
Proof. rewrite !list_elem_of_In. apply filter_In. Qed.

Lemma filter_sublist f l : List.filter f l `sublist_of` l.
Proof.
  induction l as [|x l IH]; simpl; [constructor|].
  destruct (f x); by constructor.
Qed.

Lemma StronglySorted_filter (R : relation A) f l :
  StronglySorted R l → StronglySorted R (List.filter f l).
Proof.
  induction 1 as [|x l Hl IH Hx]; simpl; [constructor|].
  destruct (f x); [|done]. constructor; [done|].
  rewrite Forall_forall in Hx. apply Forall_forall.
  intros y Hy. apply filter_elem_of in Hy as [Hy _]. by apply Hx.
Qed.

Lemma filter_split_perm f l :
  List.filter f l ++ List.filter (λ x, negb (f x)) l ≡ₚ l.
Proof.
  induction l as [|x l IH]; simpl; [done|].
  destruct (f x); simpl.
  - by rewrite IH.
  - by rewrite <- Permutation_middle, IH.
Qed.
End FilterFacts.

(** ** The ordering pipeline *)
Section PipelineFacts.
Import utils Pipeline.
Implicit Types (user : string) (prs : list PullRequest) (pr : PullRequest).

Lemma is_own_spec user pr : is_own user pr = true ↔ created_by pr = user.
Proof. apply String.eqb_eq. Qed.

Lemma own_key_front user pr :
  own_key user pr = if is_own user pr then -1 else 0.
Proof. done. Qed.

(** The second sort, as a move to the front. *)
Lemma ordered_prs_split user prs :
  let by_date := list_sort created_at true (List.filter not_draft prs) in
  ordered_prs user prs
  = List.filter (is_own user) by_date
    ++ List.filter (λ pr, negb (is_own user pr)) by_date.
Proof. apply (sort_stable_two_values _ _ (own_key_front user)). Qed.

Lemma ordered_prs_perm user prs :
  ordered_prs user prs ≡ₚ List.filter not_draft prs.
Proof. unfold ordered_prs. by rewrite !list_sort_perm. Qed.

Lemma elem_of_ordered_prs user prs pr :
  pr ∈ ordered_prs user prs ↔ pr ∈ prs ∧ is_draft pr = false.
Proof.
  rewrite ordered_prs_perm, filter_elem_of. unfold not_draft.
  by rewrite negb_true_iff.
Qed.

Lemma pr_is_approved_spec pr user :
  pr_is_approved pr user = true
  ↔ (2 ≤ length (approves pr))%nat ∨ user ∈ approves pr.
Proof.
  unfold pr_is_approved. rewrite orb_true_iff, Nat.leb_le, existsb_exists.
  split; (intros [?|H]; [by left|right]).
  - destruct H as (a & Ha & Heq). apply String.eqb_eq in Heq as <-.
    by apply list_elem_of_In.
  - exists user. split; [by apply list_elem_of_In | apply String.eqb_refl].
Qed.

Lemma order_filter_prs_open user prs :
  (order_filter_prs user prs).1
  = List.filter (λ pr, negb (pr_is_approved pr user)) (ordered_prs user prs).
Proof. done. Qed.

Lemma order_filter_prs_approved user prs :
  (order_filter_prs user prs).2
  = List.filter (λ pr, pr_is_approved pr user) (ordered_prs user prs).
Proof.
  unfold order_filter_prs, in_place_filter. simpl.
  apply filter_ext. intros pr. apply negb_involutive.
Qed.

Lemma elem_of_open_prs user prs pr :
  pr ∈ (order_filter_prs user prs).1
  ↔ (pr ∈ prs ∧ is_draft pr = false) ∧ pr_is_approved pr user = false.
Proof.
  by rewrite order_filter_prs_open, filter_elem_of, elem_of_ordered_prs,
    negb_true_iff.
Qed.

Lemma elem_of_approved_prs user prs pr :
  pr ∈ (order_filter_prs user prs).2
  ↔ (pr ∈ prs ∧ is_draft pr = false) ∧ pr_is_approved pr user = true.
Proof.
  by rewrite order_filter_prs_approved, filter_elem_of, elem_of_ordered_prs.
Qed.
End PipelineFacts.

(** C1. The ordering step of [__order_filter_prs], on any list of records
    and for any user:
    - the first sort is a stable sort of the non-draft records by
      [created_at], descending: a permutation of them, non-increasing, and
      the records of one date are in the order they came in;
    - the second sort moves the records the user created in front of the
      others and keeps the order inside both groups;
    - so, in the sequence handed to the partition, a record of the user is
      at a smaller index than any record of somebody else, and the records
      of the user, like those of the others, are non-increasing by
      [created_at]. *)
Theorem ordering_own_first_most_recent_first
    (user : string) (prs : list PullRequest) :
  let non_draft := List.filter Pipeline.not_draft prs in
  let by_date := list_sort created_at true non_draft in
  let ordered := Pipeline.ordered_prs user prs in
  (by_date ≡ₚ non_draft
   ∧ StronglySorted (descending created_at) by_date
   ∧ ∀ t, List.filter (λ pr, created_at pr =? t) by_date
          = List.filter (λ pr, created_at pr =? t) non_draft)
  ∧ ordered = List.filter (Pipeline.is_own user) by_date
              ++ List.filter (λ pr, negb (Pipeline.is_own user pr)) by_date
  ∧ (∀ i j a b,
       ordered !! i = Some a → ordered !! j = Some b →
       created_by a = user → created_by b ≠ user → (i < j)%nat)
  ∧ StronglySorted (descending created_at)
      (List.filter (Pipeline.is_own user) ordered)
  ∧ StronglySorted (descending created_at)
      (List.filter (λ pr, negb (Pipeline.is_own user pr)) ordered).
Proof.
  intros non_draft by_date ordered.
  assert (Hsorted : StronglySorted (descending created_at) by_date)
    by apply list_sort_reverse_sorted.
  assert (Hsplit : ordered = List.filter (Pipeline.is_own user) by_date
              ++ List.filter (λ pr, negb (Pipeline.is_own user pr)) by_date)
    by apply ordered_prs_split.
  assert (Hgroup : ∀ k, List.filter (λ pr, Pipeline.own_key user pr =? k) ordered
                        = List.filter (λ pr, Pipeline.own_key user pr =? k) by_date)
    by (intros k; apply list_sort_same_key).
  split_and!.
  - apply list_sort_perm.
  - done.
  - intros t. apply list_sort_same_key.
  - done.
  - intros i j a b Ha Hb Hown Hother.
    rewrite Hsplit in Ha, Hb.
    set (own := List.filter (Pipeline.is_own user) by_date) in *.
    destruct (decide (i < length own)%nat) as [Hi|Hi];
      [destruct (decide (j < length own)%nat) as [Hj|Hj]; [|lia]|].
    + rewrite lookup_app_l in Hb by done.
      apply list_elem_of_lookup_2, filter_elem_of in Hb as [_ Hb].
      by apply is_own_spec in Hb.
    + rewrite lookup_app_r in Ha by lia.
      apply list_elem_of_lookup_2, filter_elem_of in Ha as [_ Ha].
      apply negb_true_iff in Ha. apply is_own_spec in Hown. congruence.
  - rewrite (filter_ext _ (λ pr, Pipeline.own_key user pr =? -1)), Hgroup.
    + by apply StronglySorted_filter.
    + intros pr. rewrite own_key_front. by destruct (Pipeline.is_own user pr).
  - rewrite (filter_ext _ (λ pr, Pipeline.own_key user pr =? 0)), Hgroup.
    + by apply StronglySorted_filter.
    + intros pr. rewrite own_key_front. by destruct (Pipeline.is_own user pr).
Qed.

(** C2. A non-draft record of the fetched list is in [approved_prs] exactly
    when it has at least two entries in [approves] or the user is one of
    them, and in [open_prs] exactly when not. *)
Theorem approved_iff_two_approvals_or_own
    (user : string) (prs : list PullRequest) (pr : PullRequest) :
  pr ∈ prs → is_draft pr = false →
  let approved := (2 ≤ length (approves pr))%nat ∨ user ∈ approves pr in
  (pr ∈ (Pipeline.order_filter_prs user prs).2 ↔ approved)
  ∧ (pr ∈ (Pipeline.order_filter_prs user prs).1 ↔ ¬ approved).
Proof.
  intros Hin Hdraft approved. subst approved.
  rewrite elem_of_approved_prs, elem_of_open_prs, <- pr_is_approved_spec.
  destruct (utils.pr_is_approved pr user); intuition congruence.
Qed.

Lemma approved_iff_two_approvals_or_own_witness :
  let approved :=
    (2 ≤ length (approves Scenario.P4))%nat ∨ "alice" ∈ approves Scenario.P4 in
  (Scenario.P4 ∈ (Pipeline.order_filter_prs "alice" Scenario.fetched).2 ↔ approved)
  ∧ (Scenario.P4 ∈ (Pipeline.order_filter_prs "alice" Scenario.fetched).1
     ↔ ¬ approved).
Proof.
  apply (approved_iff_two_approvals_or_own "alice" Scenario.fetched Scenario.P4).
  - unfold Scenario.fetched. repeat constructor.
  - reflexivity.
Defined.

(** C7. The two lists returned by [__order_filter_prs] have no record in
    common, each is a subsequence of the ordered list the partition starts
    from, and a record is in one of them exactly when it is a non-draft
    record of the input; together they are a rearrangement of the
    non-draft records. *)
Theorem open_and_approved_partition (user : string) (prs : list PullRequest) :
  let ordered := Pipeline.ordered_prs user prs in
  let open_prs := (Pipeline.order_filter_prs user prs).1 in
  let approved_prs := (Pipeline.order_filter_prs user prs).2 in
  (∀ pr, pr ∈ open_prs → pr ∉ approved_prs)
  ∧ open_prs `sublist_of` ordered
  ∧ approved_prs `sublist_of` ordered
  ∧ (∀ pr, pr ∈ open_prs ∨ pr ∈ approved_prs ↔ pr ∈ prs ∧ is_draft pr = false)
  ∧ open_prs ++ approved_prs ≡ₚ List.filter Pipeline.not_draft prs.
Proof.
  intros ordered open_prs approved_prs. subst open_prs approved_prs.
  split_and!.
  - intros pr. rewrite elem_of_open_prs, elem_of_approved_prs.
    intros [_ Hno] [_ Hyes]. congruence.
  - rewrite order_filter_prs_open. apply filter_sublist.
  - rewrite order_filter_prs_approved. apply filter_sublist.
  - intros pr. rewrite elem_of_open_prs, elem_of_approved_prs.
    destruct (utils.pr_is_approved pr user); intuition congruence.
  - rewrite order_filter_prs_open, order_filter_prs_approved.
    rewrite <- (ordered_prs_perm user prs), Permutation_app_comm.
    apply (filter_split_perm (λ pr, utils.pr_is_approved pr user)).
Qed.

(** C8. A draft is in neither of the two lists. *)
Theorem drafts_in_neither_list
    (user : string) (prs : list PullRequest) (pr : PullRequest) :
  is_draft pr = true →
  (pr ∉ (Pipeline.order_filter_prs user prs).1)
  ∧ (pr ∉ (Pipeline.order_filter_prs user prs).2).
Proof.
  intros Hdraft. rewrite elem_of_open_prs, elem_of_approved_prs.
  split; intros [[_ ?] _]; congruence.
Qed.

Lemma drafts_in_neither_list_witness :
  Scenario.P5 ∈ Scenario.fetched
  ∧ (Scenario.P5 ∉ (Pipeline.order_filter_prs "alice" Scenario.fetched).1)
  ∧ (Scenario.P5 ∉ (Pipeline.order_filter_prs "alice" Scenario.fetched).2).
Proof.
  split.
  - unfold Scenario.fetched. repeat constructor.
  - apply (drafts_in_neither_list "alice" Scenario.fetched Scenario.P5).
    reflexivity.
Defined.

(** The scenario of the specification. *)
Example scenario_lists :
  Pipeline.order_filter_prs "alice" Scenario.fetched
  = ([Scenario.P3; Scenario.P1], [Scenario.P2; Scenario.P4]).
Proof. reflexivity. Qed.

(** ** The fetch *)
Section FetchFacts.
Context `{!Strptime}.
Implicit Types (w : World) (g : Github.t).

(** There is one error, with one title and one description. *)
Lemma get_prs_error w g e : (Github.get_prs w g).2 = inl e → e = Github.error.
Proof.
  unfold Github.get_prs. fold (Github.listing w g).
  destruct (Github.listing w g) as [rs|]; simpl; [|congruence].
  destruct (iter_json rs ≫= mapM _); simpl; congruence.
Qed.

(** It is raised when the repositories cannot be listed ... *)
Lemma get_prs_raises_unlisted w g :
  Github.listing w g = None → Github.get_prs w g = (g, inl Github.error).
Proof. unfold Github.get_prs. fold (Github.listing w g). by intros ->. Qed.

(** ... and by nothing that happens in the processes: once the URLs of
    the repositories are read, a list is returned. *)
Lemma get_prs_returns_listed w g rs urls :
  Github.listing w g = Some rs →
  iter_json rs ≫= mapM (λ r, getitem r "url") = Some urls →
  (Github.get_prs w g).2
  = inr (concat (dict_values (run_processes w (Github.fetch_prs w) urls))).
Proof.
  unfold Github.get_prs. fold (Github.listing w g). by intros -> ->.
Qed.

Lemma approved_logins_reviews items (reviews : list (string * string)) :
  Forall2 (λ r rv, describes_review r rv.1 rv.2) items reviews →
  Github.approved_logins items
  = Some (map fst (List.filter (λ rv, String.eqb rv.2 "APPROVED") reviews)).
Proof.
  induction 1 as [|r [reviewer state] items reviews [Hstate Hlogin] _ IH];
    [done|].
  cbn [Github.approved_logins List.filter snd fst] in *.
  rewrite Hstate. cbn [mbind option_bind state_is_approved].
  destruct (String.eqb state "APPROVED"); [|done].
  destruct (getitem r "user") as [user|]; [|done].
  cbn [mbind option_bind] in Hlogin |- *. rewrite Hlogin.
  cbn [mbind option_bind as_str]. by rewrite IH.
Qed.

Lemma count_approvals reviewer (reviews : list (string * string)) :
  length (List.filter (String.eqb reviewer)
            (map fst (List.filter (λ rv, String.eqb rv.2 "APPROVED") reviews)))
  = length (List.filter
              (λ rv, String.eqb reviewer rv.1 && String.eqb rv.2 "APPROVED")
              reviews).
Proof.
  induction reviews as [|[r s] reviews IH]; [done|].
  cbn [List.filter fst snd].
  destruct (String.eqb s "APPROVED"); cbn [map List.filter fst];
    destruct (String.eqb reviewer r); simpl; by rewrite ?IH.
Qed.
End FetchFacts.

Section OnTheScenario.
#[local] Existing Instance Scenario.strptime_instance.
#[local] Existing Instance Scenario.re_search_instance.

(** C3. One repository whose pull requests cannot be listed does not make
    the refresh fail: [Github.get_prs] returns the pull requests of the
    other repository, and the controller stores and returns the two lists
    made from them. *)
Theorem refresh_partial_when_a_repository_fails :
  let w := Scenario.one_repository_down in
  let o := GithubController.get_prs Scenario.controller 5 w 7 in
  requests_get_json w (Scenario.api +:+ "/repos/o/svc/pulls") = None
  ∧ (Github.get_prs w Scenario.client).2 = inr [Scenario.P3]
  ∧ GithubController.result o = inr ([Scenario.P3], [])
  ∧ GithubController.last_request (GithubController.after o)
    = Some (7, ([Scenario.P3], [])).
Proof. vm_compute. done. Qed.

(** The part of C3 the code keeps: when the repositories cannot be listed
    the error is the one of [get_prs]. *)
Example refresh_fails_offline :
  Github.get_prs Scenario.offline Scenario.client
  = (Scenario.client, inl Github.error).
Proof. reflexivity. Qed.

End OnTheScenario.

(** C4, as the code has it. [approves] has one entry for every review in
    state [APPROVED], in the order of the payload: a reviewer is listed as
    many times as they approved. *)
Theorem approves_one_entry_per_approval
    (w : World) (pr_url payload : Json) (items : list Json)
    (reviews : list (string * string)) :
  Github.get_under w pr_url "/reviews" = Some payload →
  iter_json payload = Some items →
  Forall2 (λ r rv, describes_review r rv.1 rv.2) items reviews →
  ∃ approves,
    Github.get_pr_approves w pr_url = Some approves
    ∧ approves
      = map fst (List.filter (λ rv, String.eqb rv.2 "APPROVED") reviews)
    ∧ ∀ reviewer,
        length (List.filter (String.eqb reviewer) approves)
        = length (List.filter
                    (λ rv, String.eqb reviewer rv.1 && String.eqb rv.2 "APPROVED")
                    reviews).
Proof.
  intros Hget Hiter Hreviews. eexists. split_and!; [|done|].
  - unfold Github.get_pr_approves. rewrite Hget. cbn [mbind option_bind].
    rewrite Hiter. cbn [mbind option_bind].
    by apply approved_logins_reviews.
  - intros reviewer. apply count_approvals.
Qed.

Section OnTheScenarioApprovals.
#[local] Existing Instance Scenario.strptime_instance.

Lemma approves_one_entry_per_approval_witness :
  ∃ approves,
    Github.get_pr_approves Scenario.approved_twice (JStr Scenario.pull_3)
    = Some approves
    ∧ approves
      = map fst (List.filter (λ rv, String.eqb rv.2 "APPROVED")
                   Scenario.carol_reviews)
    ∧ ∀ reviewer,
        length (List.filter (String.eqb reviewer) approves)
        = length (List.filter
                    (λ rv, String.eqb reviewer rv.1 && String.eqb rv.2 "APPROVED")
                    Scenario.carol_reviews).
Proof.
  apply (approves_one_entry_per_approval Scenario.approved_twice
           (JStr Scenario.pull_3)
           (Scenario.reviews_payload Scenario.carol_reviews)
           (map (λ rv, Scenario.review_payload rv.1 rv.2) Scenario.carol_reviews)).
  - reflexivity.
  - reflexivity.
  - repeat constructor.
Defined.

(** C4 as stated fails: a pull request whose only approvals are two
    approvals of one reviewer has two entries in [approves], not one; the
    list is not duplicate-free, and the pull request counts as approved for
    a user who did not approve it. *)
Lemma approvers_counted_once_counterexample :
  (Github.get_prs Scenario.approved_twice Scenario.client).2 = inr [Scenario.P6]
  ∧ approves Scenario.P6 = ["carol"; "carol"]
  ∧ length (approves Scenario.P6) ≠ 1%nat
  ∧ ¬ NoDup (approves Scenario.P6)
  ∧ utils.pr_is_approved Scenario.P6 "alice" = true.
Proof.
  split_and!; try reflexivity.
  - simpl. lia.
  - simpl. rewrite NoDup_cons. intros [Hnotin _]. apply Hnotin. constructor.
Qed.

End OnTheScenarioApprovals.

(** ** The one-minute cache *)
Section CacheFacts.
Context `{!Strptime}.
Import GithubController.
Implicit Types (c : t) (w : World) (now : datetime).

Lemma get_prs_fresh c now w now' fetched_at prs_tuple :
  last_request c = Some (fetched_at, prs_tuple) →
  now - fetched_at < timedelta_minutes_1 →
  get_prs c now w now' = {| after := c; result := inr prs_tuple; fetches := 0 |}.
Proof.
  intros Hentry Hfresh. unfold get_prs. rewrite Hentry.
  by destruct (Z.ltb_spec (now - fetched_at) timedelta_minutes_1); [|lia].
Qed.

Lemma get_prs_stale c now w now' :
  stale c now → get_prs c now w now' = fetch_prs c w now'.
Proof.
  unfold stale, get_prs. destruct (last_request c) as [[fetched_at ?]|]; [|done].
  intros Hstale.
  by destruct (Z.ltb_spec (now - fetched_at) timedelta_minutes_1); [lia|].
Qed.

Lemma fetch_prs_fetches_once c w now : fetches (fetch_prs c w now) = 1%nat.
Proof.
  unfold fetch_prs. by destruct (Github.get_prs w (github_client c)) as [g [e|prs]].
Qed.

Lemma fetch_prs_returned c w now g prs :
  Github.get_prs w (github_client c) = (g, inr prs) →
  fetch_prs c w now
  = {| after := {| user := user c;
                   last_request := Some (now, Pipeline.order_filter_prs (user c) prs);
                   github_client := g |};
       result := inr (Pipeline.order_filter_prs (user c) prs);
       fetches := 1 |}.
Proof. unfold fetch_prs. by intros ->. Qed.

Lemma fetch_prs_raised c w now g e :
  Github.get_prs w (github_client c) = (g, inl e) →
  fetch_prs c w now
  = {| after := {| user := user c; last_request := last_request c;
                   github_client := g |};
       result := inl e; fetches := 1 |}.
Proof. unfold fetch_prs. by intros ->. Qed.

(** A call that fetched and returned stored what it returned, at the
    time read after the fetch. *)
Lemma get_prs_stored c now w now' prs_tuple :
  fetches (get_prs c now w now') = 1%nat →
  result (get_prs c now w now') = inr prs_tuple →
  last_request (after (get_prs c now w now')) = Some (now', prs_tuple).
Proof.
  unfold get_prs.
  destruct (last_request c) as [[fetched_at old]|] eqn:Hentry;
    [destruct (now - fetched_at <? timedelta_minutes_1); [done|]|];
    unfold fetch_prs;
    destruct (Github.get_prs w (github_client c)) as [g [e|prs]]; simpl;
    intros _ Hresult; by simplify_eq.
Qed.
End CacheFacts.

(** C5. Two calls of [__get_prs], the first reading the clock at [t1] for
    the freshness test and at [t1'] when it stores, the second at [t2]:
    - if the first call fetched and returned a pair, the clock did not go
      back during that call, and [t2 - t1] is under one minute, then the
      second call returns that pair, leaves the controller as it is and
      does not call [github_client.get_prs];
    - a call made with no entry, or with an entry at least one minute old,
      calls [github_client.get_prs] exactly once; when that returns a list,
      the pair made from it is returned and stored with the time read after
      the fetch. *)
Theorem cache_serves_for_a_minute_then_fetches_once `{!Strptime}
    (c : GithubController.t) (t1 t1' t2 t2' : datetime) (w1 w2 : World) :
  let o1 := GithubController.get_prs c t1 w1 t1' in
  (∀ prs_tuple,
     GithubController.fetches o1 = 1%nat →
     GithubController.result o1 = inr prs_tuple →
     t1 <= t1' → t2 - t1 < timedelta_minutes_1 →
     GithubController.get_prs (GithubController.after o1) t2 w2 t2'
     = {| GithubController.after := GithubController.after o1;
          GithubController.result := inr prs_tuple;
          GithubController.fetches := 0 |})
  ∧ (GithubController.stale c t1 →
     GithubController.fetches o1 = 1%nat
     ∧ ∀ g prs,
         Github.get_prs w1 (GithubController.github_client c) = (g, inr prs) →
         let prs_tuple := Pipeline.order_filter_prs (GithubController.user c) prs in
         GithubController.result o1 = inr prs_tuple
         ∧ GithubController.last_request (GithubController.after o1)
           = Some (t1', prs_tuple)).
Proof.
  intros o1. split.
  - intros prs_tuple Hfetched Hreturned Hclock Hsoon.
    apply (get_prs_fresh _ _ _ _ t1'); [by apply get_prs_stored | lia].
  - intros Hstale. subst o1. rewrite (get_prs_stale _ _ _ _ Hstale).
    split; [apply fetch_prs_fetches_once|].
    intros g prs Hget. by rewrite (fetch_prs_returned _ _ _ _ _ Hget).
Qed.

(** C6. A call of [__get_prs] that has to fetch, and whose fetch raises:
    [last_request] is what it was, the call raises that error, which is the
    one error of [Github.get_prs], and the next call, at a time that is not
    earlier, calls [github_client.get_prs] again. *)
Theorem failed_fetch_keeps_entry_and_is_retried `{!Strptime}
    (c : GithubController.t) (now now' later later' : datetime) (w w2 : World)
    (g : Github.t) (e : GithubError) :
  GithubController.stale c now →
  Github.get_prs w (GithubController.github_client c) = (g, inl e) →
  now <= later →
  let o := GithubController.get_prs c now w now' in
  GithubController.last_request (GithubController.after o)
  = GithubController.last_request c
  ∧ GithubController.result o = inl e
  ∧ e = Github.error
  ∧ GithubController.fetches o = 1%nat
  ∧ GithubController.fetches
      (GithubController.get_prs (GithubController.after o) later w2 later')
    = 1%nat.
Proof.
  intros Hstale Hget Hclock o. subst o.
  rewrite (get_prs_stale _ _ _ _ Hstale), (fetch_prs_raised _ _ _ _ _ Hget).
  cbn [GithubController.after GithubController.result GithubController.fetches
       GithubController.last_request].
  split_and!; try done.
  - apply (get_prs_error w (GithubController.github_client c)). by rewrite Hget.
  - rewrite get_prs_stale; [apply fetch_prs_fetches_once|].
    unfold GithubController.stale in *. simpl.
    destruct (GithubController.last_request c) as [[fetched_at ?]|]; [lia|done].
Qed.

Section OnTheScenarioCache.
#[local] Existing Instance Scenario.strptime_instance.

Lemma cache_serves_for_a_minute_then_fetches_once_witness :
  let second : Z := 1000000 in
  let o1 := GithubController.get_prs Scenario.controller Scenario.t0
              Scenario.approved_twice (Scenario.t0 + 2 * second) in
  GithubController.get_prs (GithubController.after o1)
    (Scenario.t0 + 59 * second) Scenario.offline (Scenario.t0 + 60 * second)
  = {| GithubController.after := GithubController.after o1;
       GithubController.result := inr ([], [Scenario.P6]);
       GithubController.fetches := 0 |}
  ∧ GithubController.fetches o1 = 1%nat.
Proof.
  intros second o1.
  destruct (cache_serves_for_a_minute_then_fetches_once Scenario.controller
              Scenario.t0 (Scenario.t0 + 2 * second)
              (Scenario.t0 + 59 * second) (Scenario.t0 + 60 * second)
              Scenario.approved_twice Scenario.offline) as [Hhit Hmiss].
  split.
  - apply Hhit; [reflexivity | reflexivity | by vm_compute | reflexivity].
  - apply Hmiss. exact I.
Defined.

Lemma failed_fetch_keeps_entry_and_is_retried_witness :
  let second : Z := 1000000 in
  let o := GithubController.get_prs Scenario.warm_controller
             (Scenario.t0 + 61 * second) Scenario.offline
             (Scenario.t0 + 62 * second) in
  GithubController.last_request (GithubController.after o)
  = GithubController.last_request Scenario.warm_controller
  ∧ GithubController.result o = inl Github.error
  ∧ Github.error = Github.error
  ∧ GithubController.fetches o = 1%nat
  ∧ GithubController.fetches
      (GithubController.get_prs (GithubController.after o)
         (Scenario.t0 + 63 * second) Scenario.approved_twice
         (Scenario.t0 + 64 * second))
    = 1%nat.
Proof.
  intros second.
  apply (failed_fetch_keeps_entry_and_is_retried Scenario.warm_controller
           (Scenario.t0 + 61 * second) (Scenario.t0 + 62 * second)
           (Scenario.t0 + 63 * second) (Scenario.t0 + 64 * second)
           Scenario.offline Scenario.approved_twice Scenario.client Github.error).
  - by vm_compute.
  - reflexivity.
  - by vm_compute.
Defined.

End OnTheScenarioCache.

(** ** The keyword filter *)
Section QueryFacts.
Context `{!Strptime} `{!ReSearch}.
Import GithubController KeywordQueryEventListener.
Implicit Types (query : string) (pr : PullRequest) (prs : list PullRequest).

Lemma found_spec query text :
  found query text = true ↔ re_search_ignorecase query text = Some true.
Proof.
  unfold found. destruct (re_search_ignorecase query text) as [[|]|];
    split; congruence.
Qed.

(** When the two searches return, the predicate is "found in the title or
    found in the name of the repository". *)
Lemma matches_returned query pr keep :
  matches query pr = Some keep → keep = title_or_repo_found query pr.
Proof.
  unfold matches, title_or_repo_found, found.
  destruct (re_search_ignorecase query (title pr)) as [[|]|]; simpl;
    [congruence| |done].
  destruct (re_search_ignorecase query (repo pr)) as [[|]|]; congruence.
Qed.

Lemma select_returned (p : PullRequest → option bool) (f : PullRequest → bool) prs :
  (∀ pr keep, p pr = Some keep → keep = f pr) →
  (∀ pr, pr ∈ prs → is_Some (p pr)) →
  select (Some p) prs = Some (List.filter f prs).
Proof.
  intros Hf. induction prs as [|pr prs IH]; intros Hsome; [done|].
  cbn [select List.filter].
  destruct (Hsome pr) as [keep Hkeep]; [constructor|].
  rewrite Hkeep, IH by (intros; apply Hsome; by constructor).
  by rewrite <- (Hf pr keep Hkeep).
Qed.

Lemma select_everything prs : select None prs = Some prs.
Proof. induction prs as [|pr prs IH]; [done|]. simpl. by rewrite IH. Qed.

(** What [on_event] returns when [__get_prs] returned a pair. *)
Lemma on_event_returned argument c now w now' open_prs approved_prs :
  result (get_prs c now w now') = inr (open_prs, approved_prs) →
  (on_event argument c now w now').2
  = items_of (user c) OPEN (Some (matches (get_argument argument))) true
      (open_prs, approved_prs).
Proof. unfold on_event, build_pr_items. by intros ->. Qed.
End QueryFacts.

(** C9, as the code has it.  When [__get_prs] returns
    [(open_prs, approved_prs)] and the search of the query raises on none of
    the open records, the items [on_event] renders are
    those of the open records whose title or whose repository name the
    query is found in, case-insensitively, one field being enough; they are
    a subsequence of [open_prs], in its order, followed by the button for
    the approved pull requests when there are some. *)
Theorem keyword_filter_title_or_repository `{!Strptime} `{!ReSearch}
    (argument : option string) (c : GithubController.t)
    (now now' : datetime) (w : World)
    (open_prs approved_prs : list PullRequest) :
  let query := KeywordQueryEventListener.get_argument argument in
  GithubController.result (GithubController.get_prs c now w now')
  = inr (open_prs, approved_prs) →
  (∀ pr, pr ∈ open_prs → is_Some (KeywordQueryEventListener.matches query pr)) →
  let shown :=
    List.filter (KeywordQueryEventListener.title_or_repo_found query) open_prs in
  (KeywordQueryEventListener.on_event argument c now w now').2
  = Some (map (GithubController.pr_item (GithubController.user c) OPEN) shown
          ++ match approved_prs with
             | [] => []
             | _ => [GithubController.build_approved_button approved_prs]
             end)
  ∧ shown `sublist_of` open_prs
  ∧ ∀ pr, pr ∈ shown
          ↔ pr ∈ open_prs
            ∧ (re_search_ignorecase query (title pr) = Some true
               ∨ re_search_ignorecase query (repo pr) = Some true).
Proof.
  intros query Hprs Hsearch shown. subst query shown. split_and!.
  - rewrite (on_event_returned _ _ _ _ _ _ _ Hprs).
    unfold GithubController.items_of.
    rewrite (select_returned _ _ _ (matches_returned _) Hsearch).
    cbn [mbind option_bind].
    destruct approved_prs; simpl; [by rewrite app_nil_r | done].
  - apply filter_sublist.
  - intros pr. rewrite filter_elem_of.
    unfold KeywordQueryEventListener.title_or_repo_found.
    by rewrite orb_true_iff, !found_spec.
Qed.

(** C10. With no argument the query is the empty pattern; as the empty
    pattern is found in every text, the comprehension keeps every open
    record: [on_event] renders the items of all of [open_prs], in order. *)
Theorem empty_query_shows_every_open_pr `{!Strptime} `{!ReSearch}
    (c : GithubController.t) (now now' : datetime) (w : World)
    (open_prs approved_prs : list PullRequest) :
  (∀ text, re_search_ignorecase "" text = Some true) →
  GithubController.result (GithubController.get_prs c now w now')
  = inr (open_prs, approved_prs) →
  KeywordQueryEventListener.get_argument None = ""
  ∧ GithubController.select (Some (KeywordQueryEventListener.matches "")) open_prs
    = Some open_prs
  ∧ (KeywordQueryEventListener.on_event None c now w now').2
    = Some (map (GithubController.pr_item (GithubController.user c) OPEN) open_prs
            ++ match approved_prs with
               | [] => []
               | _ => [GithubController.build_approved_button approved_prs]
               end).
Proof.
  intros Hempty Hprs.
  assert (Hall : GithubController.select
                   (Some (KeywordQueryEventListener.matches "")) open_prs
                 = Some open_prs).
  { assert (Hkeep : ∀ pr, KeywordQueryEventListener.matches "" pr = Some true).
    { intros pr. unfold KeywordQueryEventListener.matches.
      by rewrite (Hempty (title pr)). }
    clear Hprs. induction open_prs as [|pr prs IH]; [done|].
    cbn [GithubController.select]. rewrite Hkeep, IH. done. }
  split_and!; [done|done|].
  rewrite (on_event_returned _ _ _ _ _ _ _ Hprs).
  unfold GithubController.items_of. cbn [KeywordQueryEventListener.get_argument default].
  rewrite Hall. cbn [mbind option_bind].
  destruct approved_prs; simpl; [by rewrite app_nil_r | done].
Qed.

Section OnTheScenarioQuery.
#[local] Existing Instance Scenario.strptime_instance.
#[local] Existing Instance Scenario.re_search_instance.

Lemma occurs_in_empty text : Scenario.occurs_in "" text = true.
Proof. by destruct text. Qed.

Lemma keyword_filter_title_or_repository_witness :
  let shown :=
    List.filter (KeywordQueryEventListener.title_or_repo_found "SVC")
      [Scenario.P3; Scenario.P1] in
  (KeywordQueryEventListener.on_event (Some "SVC") Scenario.warm_controller
     (Scenario.t0 + 1) Scenario.offline (Scenario.t0 + 2)).2
  = Some (map (GithubController.pr_item "alice" OPEN) shown
          ++ [GithubController.build_approved_button [Scenario.P2; Scenario.P4]])
  ∧ shown `sublist_of` [Scenario.P3; Scenario.P1]
  ∧ ∀ pr, pr ∈ shown
          ↔ pr ∈ [Scenario.P3; Scenario.P1]
            ∧ (re_search_ignorecase "SVC" (title pr) = Some true
               ∨ re_search_ignorecase "SVC" (repo pr) = Some true).
Proof.
  apply (keyword_filter_title_or_repository (Some "SVC") Scenario.warm_controller
           (Scenario.t0 + 1) (Scenario.t0 + 2) Scenario.offline
           [Scenario.P3; Scenario.P1] [Scenario.P2; Scenario.P4]).
  - reflexivity.
  - intros pr Hpr. apply list_elem_of_In in Hpr.
    destruct Hpr as [<-|[<-|[]]]; eexists; reflexivity.
Defined.

Lemma empty_query_shows_every_open_pr_witness :
  KeywordQueryEventListener.get_argument None = ""
  ∧ GithubController.select (Some (KeywordQueryEventListener.matches ""))
      [Scenario.P3; Scenario.P1]
    = Some [Scenario.P3; Scenario.P1]
  ∧ (KeywordQueryEventListener.on_event None Scenario.warm_controller
       (Scenario.t0 + 1) Scenario.offline (Scenario.t0 + 2)).2
    = Some (map (GithubController.pr_item "alice" OPEN) [Scenario.P3; Scenario.P1]
            ++ [GithubController.build_approved_button [Scenario.P2; Scenario.P4]]).
Proof.
  apply (empty_query_shows_every_open_pr Scenario.warm_controller
           (Scenario.t0 + 1) (Scenario.t0 + 2) Scenario.offline
           [Scenario.P3; Scenario.P1] [Scenario.P2; Scenario.P4]).
  - intros text.
    change (re_search_ignorecase "" text) with (Some (Scenario.occurs_in "" text)).
    by rewrite occurs_in_empty.
  - reflexivity.
Defined.

(** C9 as stated fails on a pattern that does not compile: with the query
    ["("] and the two open records of the scenario, the search raises on
    the first record, nothing catches it, and [on_event] returns no list. *)
Lemma keyword_filter_every_pattern_counterexample :
  GithubController.result
    (GithubController.get_prs Scenario.warm_controller (Scenario.t0 + 1)
       Scenario.offline (Scenario.t0 + 2))
  = inr ([Scenario.P3; Scenario.P1], [Scenario.P2; Scenario.P4])
  ∧ re_search_ignorecase "(" (title Scenario.P3) = None
  ∧ (KeywordQueryEventListener.on_event (Some "(") Scenario.warm_controller
       (Scenario.t0 + 1) Scenario.offline (Scenario.t0 + 2)).2
    = None
  ∧ ∀ items,
      (KeywordQueryEventListener.on_event (Some "(") Scenario.warm_controller
         (Scenario.t0 + 1) Scenario.offline (Scenario.t0 + 2)).2
      ≠ Some items.
Proof. split_and!; try reflexivity. intros items. discriminate. Qed.

(** The filter on the scenario: [svc] is found in the repository of [P1]
    only, whatever the case it is typed in. *)
Example keyword_filter_scenario :
  List.filter (KeywordQueryEventListener.title_or_repo_found "SVC")
    [Scenario.P3; Scenario.P1]
  = [Scenario.P1].
Proof. reflexivity. Qed.

End OnTheScenarioQuery.

(** * Further properties of the code *)

(** ** The shared dictionary and the processes that write to it *)
Section DictFacts.
Context {V : Type}.
Implicit Types (d : list (string * V)) (k : string) (v : V).

Lemma assoc_setitem_eq k v d : assoc k (dict_setitem k v d) = Some v.
Proof.
  induction d as [|[k' v'] d IH]; simpl.
  - by rewrite String.eqb_refl.
  - destruct (String.eqb_spec k' k) as [->|Hne]; simpl.
    + by rewrite String.eqb_refl.
    + by destruct (String.eqb_spec k' k).
Qed.

Lemma assoc_setitem_ne k k' v d :
  k ≠ k' → assoc k' (dict_setitem k v d) = assoc k' d.
Proof.
  intros Hne. induction d as [|[k0 v0] d IH]; simpl.
  - by destruct (String.eqb_spec k k').
  - destruct (String.eqb_spec k0 k) as [->|Hne0]; simpl.
    + by destruct (String.eqb_spec k k').
    + by rewrite IH.
Qed.

Lemma elem_of_setitem k v d kv :
  kv ∈ dict_setitem k v d → kv = (k, v) ∨ kv ∈ d.
Proof.
  induction d as [|[k' v'] d IH]; simpl.
  - intros ->%list_elem_of_singleton. by left.
  - destruct (String.eqb k' k).
    + intros [->|?]%elem_of_cons; [by left|right; by constructor].
    + intros [->|[->|?]%IH]%elem_of_cons;
        [right; constructor | by left | right; by constructor].
Qed.

Lemma setitem_keys k v d :
  (dict_setitem k v d).*1 = if decide (k ∈ d.*1) then d.*1 else d.*1 ++ [k].
Proof.
  induction d as [|[k' v'] d IH]; [done|]. csimpl.
  destruct (String.eqb_spec k' k) as [->|Hne]; csimpl.
  - rewrite decide_True; [done|constructor].
  - rewrite IH. destruct (decide (k ∈ d.*1)) as [Hin|Hnin].
    + rewrite decide_True; [done|by constructor].
    + rewrite decide_False; [done|].
      intros [?|?]%elem_of_cons; congruence.
Qed.

Lemma setitem_keys_NoDup k v d : NoDup d.*1 → NoDup (dict_setitem k v d).*1.
Proof.
  intros Hd. rewrite setitem_keys. destruct (decide (k ∈ d.*1)); [done|].
  apply NoDup_app. split_and!; [done| |apply NoDup_singleton].
  intros x Hx ->%list_elem_of_singleton. done.
Qed.

Lemma assoc_is_Some k d : is_Some (assoc k d) ↔ k ∈ d.*1.
Proof.
  induction d as [|[k' v'] d IH]; simpl.
  - split; [by intros [? ?] | by intros ?%elem_of_nil].
  - destruct (String.eqb_spec k' k) as [->|Hne].
    + split; [constructor | by eexists].
    + rewrite IH, elem_of_cons. split; [by right|].
      intros [?|?]; [congruence|done].
Qed.
End DictFacts.

Section FanOutFacts.
Context {T V : Type} (target : T → option (string * V)).

Local Abbreviation writes :=
  (λ shared t, match target t with
               | Some (k, v) => dict_setitem k v shared
               | None => shared
               end).

Lemma foldl_writes_elem d tasks kv :
  kv ∈ foldl writes d tasks →
  kv ∈ d ∨ ∃ t, t ∈ tasks ∧ target t = Some kv.
Proof.
  revert d. induction tasks as [|t tasks IH]; intros d; simpl; [by left|].
  intros [Hd|(t' & Ht' & Htarget)]%IH.
  - destruct (target t) as [[k v]|] eqn:Ht; [|by left].
    apply elem_of_setitem in Hd as [->|Hd]; [|by left].
    right. exists t. split; [constructor|done].
  - right. exists t'. split; [by constructor|done].
Qed.

Lemma foldl_writes_keys d tasks k :
  k ∈ (foldl writes d tasks).*1
  ↔ k ∈ d.*1 ∨ ∃ t v, t ∈ tasks ∧ target t = Some (k, v).
Proof.
  revert d. induction tasks as [|t tasks IH]; intros d; simpl.
  - split; [by left|]. intros [?|(t & v & ?%elem_of_nil & _)]; done.
  - rewrite IH. destruct (target t) as [[k' v']|] eqn:Ht.
    + rewrite setitem_keys. split.
      * intros [Hk|(t' & v & Ht' & Htarget)].
        -- destruct (decide (k' ∈ d.*1)); [by left|].
           apply elem_of_app in Hk as [?| ->%list_elem_of_singleton]; [by left|].
           right. exists t, v'. split; [constructor|done].
        -- right. exists t', v. split; [by constructor|done].
      * intros [Hk|(t' & v & [->|Ht']%elem_of_cons & Htarget)].
        -- left. destruct (decide (k' ∈ d.*1)); [done|].
           apply elem_of_app. by left.
        -- left. rewrite Ht in Htarget. injection Htarget as -> ->.
           destruct (decide (k ∈ d.*1)); [done|].
           apply elem_of_app. right. constructor.
        -- right. by exists t', v.
    + split.
      * intros [?|(t' & v & Ht' & Htarget)]; [by left|].
        right. exists t', v. split; [by constructor|done].
      * intros [?|(t' & v & [->|Ht']%elem_of_cons & Htarget)];
          [by left|congruence|].
        right. by exists t', v.
Qed.

Lemma foldl_writes_NoDup d tasks :
  NoDup d.*1 → NoDup (foldl writes d tasks).*1.
Proof.
  revert d. induction tasks as [|t tasks IH]; intros d Hd; simpl; [done|].
  apply IH. destruct (target t) as [[k v]|]; [|done].
  by apply setitem_keys_NoDup.
Qed.
End FanOutFacts.

(** X1. After the start and the join of the processes of one fan-out, when
    every started process is joined once: the dictionary has one entry per
    key, every entry was written by a task whose target returned, and a key
    is present exactly when such a task wrote it.  A task whose target
    raised leaves no trace. *)
Theorem joined_dictionary_holds_the_writes {T V : Type}
    (w : World) (target : T → option (string * V)) (tasks : list T) :
  (∀ (A : Type) (l : list A), completion w A l ≡ₚ l) →
  let shared := run_processes w target tasks in
  NoDup shared.*1
  ∧ (∀ k v, (k, v) ∈ shared → ∃ t, t ∈ tasks ∧ target t = Some (k, v))
  ∧ (∀ k, is_Some (assoc k shared)
          ↔ ∃ t v, t ∈ tasks ∧ target t = Some (k, v)).
Proof.
  intros Hjoin shared. subst shared. unfold run_processes. split_and!.
  - apply foldl_writes_NoDup. constructor.
  - intros k v [?%elem_of_nil|(t & Ht & Htarget)]%foldl_writes_elem; [done|].
    exists t. by rewrite <- (Hjoin T tasks).
  - intros k. rewrite assoc_is_Some, foldl_writes_keys. split.
    + intros [?%elem_of_nil|(t & v & Ht & Htarget)]; [done|].
      exists t, v. by rewrite <- (Hjoin T tasks).
    + intros (t & v & Ht & Htarget). right. exists t, v.
      by rewrite (Hjoin T tasks).
Qed.

Lemma joined_dictionary_holds_the_writes_witness :
  let target := λ n : nat, if (n =? 0)%nat then None else Some ("k", n) in
  let shared := run_processes Scenario.offline target [1; 0; 2]%nat in
  NoDup shared.*1
  ∧ (∀ k v, (k, v) ∈ shared → ∃ t, t ∈ [1; 0; 2]%nat ∧ target t = Some (k, v))
  ∧ (∀ k, is_Some (assoc k shared)
          ↔ ∃ t v, t ∈ [1; 0; 2]%nat ∧ target t = Some (k, v)).
Proof.
  intros target.
  apply (joined_dictionary_holds_the_writes Scenario.offline target [1; 0; 2]%nat).
  intros A l. reflexivity.
Defined.

(** ** What [Github.get_prs] keeps and returns *)
Section MoreFetchFacts.
Context `{!Strptime}.
Implicit Types (w : World) (g : Github.t).

Lemma listing_kept w g : Github.repos g ≠ JNull → Github.listing w g = Some (Github.repos g).
Proof. unfold Github.listing. by destruct (Github.repos g). Qed.

Lemma get_prs_client w g rs :
  Github.listing w g = Some rs →
  (Github.get_prs w g).1
  = {| Github.GITHUB_URL := Github.GITHUB_URL g; Github.repos := rs |}.
Proof.
  unfold Github.get_prs. intros ->.
  by destruct (iter_json rs ≫= mapM _).
Qed.

Lemma elem_of_dict_values {V : Type} (d : list (string * V)) v :
  v ∈ dict_values d → ∃ k, (k, v) ∈ d.
Proof.
  unfold dict_values. intros Hv. apply list_elem_of_In, in_map_iff in Hv.
  destruct Hv as ([k v'] & <- & Hin). exists k. by apply list_elem_of_In.
Qed.

Lemma fetch_prs_elem w repo_url key prs pr :
  (∀ (A : Type) (l : list A), completion w A l ≡ₚ l) →
  Github.fetch_prs w repo_url = Some (key, prs) → pr ∈ prs →
  ∃ pulls payloads payload pr_key,
    Github.get_under w repo_url "/pulls" = Some pulls
    ∧ iter_json pulls = Some payloads
    ∧ payload ∈ payloads
    ∧ Github.build_pr w payload = Some (pr_key, pr).
Proof.
  intros Hjoin Hfetch Hpr. unfold Github.fetch_prs in Hfetch.
  destruct (Github.get_under w repo_url "/pulls") as [pulls|]; [|done].
  cbn [mbind option_bind] in Hfetch.
  destruct (iter_json pulls) as [payloads|] eqn:Hiter; [|done].
  cbn [mbind option_bind] in Hfetch.
  destruct (as_str repo_url); [|done]. injection Hfetch as <- <-.
  apply elem_of_dict_values in Hpr as [pr_key Hpr].
  unfold run_processes in Hpr.
  apply foldl_writes_elem in Hpr as [?%elem_of_nil|(payload & Hin & Hbuilt)];
    [done|].
  rewrite (Hjoin Json payloads) in Hin.
  exists pulls, payloads, payload, pr_key. split_and!; done.
Qed.
End MoreFetchFacts.

(** X2. A listing of the repositories that decodes to something other than
    [None] is kept in [self.repos] whatever it is.  When it cannot be read
    as repositories with a ["url"] (an error object, for instance), that
    call raises [GithubError] and so does every later call on the same
    object, whatever the API answers by then. *)
Theorem unreadable_listing_is_kept `{!Strptime}
    (w : World) (g : Github.t) (rs : Json) :
  Github.listing w g = Some rs →
  rs ≠ JNull →
  iter_json rs ≫= mapM (λ r, getitem r "url") = None →
  let g' := (Github.get_prs w g).1 in
  Github.repos g' = rs
  ∧ (Github.get_prs w g).2 = inl Github.error
  ∧ ∀ w', Github.get_prs w' g' = (g', inl Github.error).
Proof.
  intros Hlisting Hnull Hurls g'. subst g'.
  rewrite (get_prs_client _ _ _ Hlisting). split_and!; [done| |].
  - unfold Github.get_prs. by rewrite Hlisting, Hurls.
  - intros w'. unfold Github.get_prs.
    rewrite listing_kept by done. cbn [Github.repos Github.GITHUB_URL].
    by rewrite Hurls.
Qed.

Lemma unreadable_listing_is_kept_witness :
  let g' := (@Github.get_prs Scenario.strptime_instance
               Cases.bad_credentials Scenario.client).1 in
  Github.repos g' = JObj [("message", JStr "Bad credentials")]
  ∧ (@Github.get_prs Scenario.strptime_instance
       Cases.bad_credentials Scenario.client).2 = inl Github.error
  ∧ ∀ w', @Github.get_prs Scenario.strptime_instance w' g'
          = (g', inl Github.error).
Proof.
  apply (@unreadable_listing_is_kept Scenario.strptime_instance
           Cases.bad_credentials Scenario.client
           (JObj [("message", JStr "Bad credentials")])).
  - reflexivity.
  - discriminate.
  - reflexivity.
Defined.

(** X3. The repositories are listed once per [Github] object: a call that
    cannot list them leaves [self.repos] at [None], so that the next call
    asks again; once [self.repos] holds a value, no call changes the object
    and the listing is what the object holds, not what the API answers. *)
Theorem repositories_listed_once `{!Strptime} (w : World) (g : Github.t) :
  (Github.listing w g = None → Github.get_prs w g = (g, inl Github.error))
  ∧ (Github.repos g ≠ JNull →
     (Github.get_prs w g).1 = g
     ∧ ∀ w', Github.listing w' (Github.get_prs w g).1 = Some (Github.repos g)).
Proof.
  split.
  - apply get_prs_raises_unlisted.
  - intros Hkept.
    assert (Hg : (Github.get_prs w g).1 = g).
    { rewrite (get_prs_client _ _ _ (listing_kept w g Hkept)). by destruct g. }
    split; [done|]. intros w'. rewrite Hg. by apply listing_kept.
Qed.

(** X4. Every record [Github.get_prs] returns was built by [__build_pr]
    from an entry of the pull-request listing of a repository whose URL was
    read from the listing of the repositories. *)
Theorem returned_records_were_built `{!Strptime}
    (w : World) (g : Github.t) (prs : list PullRequest) (pr : PullRequest) :
  (∀ (A : Type) (l : list A), completion w A l ≡ₚ l) →
  (Github.get_prs w g).2 = inr prs →
  pr ∈ prs →
  ∃ rs repositories r repo_url pulls payloads payload pr_key,
    Github.listing w g = Some rs
    ∧ iter_json rs = Some repositories
    ∧ r ∈ repositories
    ∧ getitem r "url" = Some repo_url
    ∧ Github.get_under w repo_url "/pulls" = Some pulls
    ∧ iter_json pulls = Some payloads
    ∧ payload ∈ payloads
    ∧ Github.build_pr w payload = Some (pr_key, pr).
Proof.
  intros Hjoin Hprs Hpr. unfold Github.get_prs in Hprs.
  destruct (Github.listing w g) as [rs|]; [|done].
  destruct (iter_json rs) as [repositories|] eqn:Hiter; [|done].
  cbn [mbind option_bind] in Hprs.
  destruct (mapM _ repositories) as [urls|] eqn:Hurls; [|done].
  injection Hprs as <-.
  apply list_elem_of_In, in_concat in Hpr as (repo_prs & Hrepo & Hpr).
  apply list_elem_of_In in Hrepo, Hpr.
  apply elem_of_dict_values in Hrepo as [key Hrepo].
  unfold run_processes in Hrepo.
  apply foldl_writes_elem in Hrepo as [?%elem_of_nil|(repo_url & Hin & Hfetch)];
    [done|].
  rewrite (Hjoin Json urls) in Hin.
  apply mapM_Some in Hurls.
  apply list_elem_of_lookup in Hin as [i Hi].
  destruct (Forall2_lookup_r _ _ _ _ _ Hurls Hi) as (r & Hr & Hurl).
  destruct (fetch_prs_elem _ _ _ _ _ Hjoin Hfetch Hpr)
    as (pulls & payloads & payload & pr_key & ? & ? & ? & ?).
  exists rs, repositories, r, repo_url, pulls, payloads, payload, pr_key.
  split_and!; try done. by eapply list_elem_of_lookup_2.
Qed.

Lemma returned_records_were_built_witness :
  ∃ rs repositories r repo_url pulls payloads payload pr_key,
    @Github.listing Cases.two_repositories Scenario.client = Some rs
    ∧ iter_json rs = Some repositories
    ∧ r ∈ repositories
    ∧ getitem r "url" = Some repo_url
    ∧ Github.get_under Cases.two_repositories repo_url "/pulls" = Some pulls
    ∧ iter_json pulls = Some payloads
    ∧ payload ∈ payloads
    ∧ @Github.build_pr Scenario.strptime_instance Cases.two_repositories payload
      = Some (pr_key, Scenario.P1).
Proof.
  apply (@returned_records_were_built Scenario.strptime_instance
           Cases.two_repositories Scenario.client [Scenario.P1; Scenario.P3]).
  - intros A l. reflexivity.
  - reflexivity.
  - constructor.
Defined.

Lemma repositories_listed_once_witness :
  @Github.get_prs Scenario.strptime_instance Scenario.offline Scenario.client
  = (Scenario.client, inl Github.error).
Proof.
  apply (@repositories_listed_once Scenario.strptime_instance
           Scenario.offline Scenario.client).
  reflexivity.
Defined.

(** X5. [__get_pr_approves] looks at a review in another state than
    ["APPROVED"] only for its state: when every review has a ["state"], the
    result is the one of reading the login of the approving reviews alone,
    in their order; it is a list exactly when each of those has a string
    under ["user"]["login"]. *)
Theorem only_approving_reviews_are_read (reviews : list Json) :
  Forall (λ r, is_Some (getitem r "state")) reviews →
  Github.approved_logins reviews
  = mapM (λ r, user ← getitem r "user";
               login ← getitem user "login";
               as_str login)
      (List.filter (λ r, default false (state_is_approved <$> getitem r "state"))
         reviews).
Proof.
  induction 1 as [|r reviews [state Hstate] _ IH]; [done|].
  cbn [Github.approved_logins List.filter]. rewrite Hstate.
  cbn [mbind option_bind fmap option_fmap option_map default].
  destruct (state_is_approved state); [|done].
  rewrite IH. simpl.
  destruct (getitem r "user") as [user|]; [|done]. simpl.
  destruct (getitem user "login") as [login|]; [|done]. simpl.
  by destruct (as_str login).
Qed.

Lemma only_approving_reviews_are_read_witness :
  Github.approved_logins
    [JObj [("state", JStr "COMMENTED")];
     Scenario.review_payload "carol" "APPROVED"]
  = Some ["carol"].
Proof.
  rewrite (only_approving_reviews_are_read
             [JObj [("state", JStr "COMMENTED")];
              Scenario.review_payload "carol" "APPROVED"]).
  - reflexivity.
  - repeat constructor; by eexists.
Defined.

(** ** The controller over a session *)
Section SessionFacts.
Context `{!Strptime}.
Import GithubController.

Lemma get_prs_cases c now w now' :
  let o := get_prs c now w now' in
  user (after o) = user c
  ∧ (last_request (after o) = last_request c
     ∨ ∃ prs, result o = inr (Pipeline.order_filter_prs (user c) prs)
              ∧ last_request (after o)
                = Some (now', Pipeline.order_filter_prs (user c) prs)).
Proof.
  unfold get_prs.
  destruct (last_request c) as [[fetched_at old]|] eqn:Hentry;
    [destruct (now - fetched_at <? timedelta_minutes_1);
       [split; [done|by left]|]|];
    unfold fetch_prs;
    destruct (Github.get_prs w (github_client c)) as [g [e|prs]]; simpl;
    (split; [done|]); try (by left); right; by exists prs.
Qed.

Lemma get_prs_raised c now w now' e :
  result (get_prs c now w now') = inl e →
  e = Github.error
  ∧ last_request (after (get_prs c now w now')) = last_request c.
Proof.
  unfold get_prs.
  destruct (last_request c) as [[fetched_at old]|] eqn:Hentry;
    [destruct (now - fetched_at <? timedelta_minutes_1); [done|]|];
    unfold fetch_prs;
    destruct (Github.get_prs w (github_client c)) as [g [e'|prs]] eqn:Hget;
    simpl; intros He; simplify_eq; (split; [|done]);
    apply (get_prs_error w (github_client c)); by rewrite Hget.
Qed.
End SessionFacts.

(** X6. In every controller a session can hold, from [__init__] through any
    calls of [__get_prs], the user is the one it was made for and the
    stored pair is what [__order_filter_prs] made of some fetched list for
    that user: the open list has no draft and no pull request approved for
    the user, the approved list has approved non-drafts only. *)
Theorem stored_pair_is_a_pipeline_output `{!Strptime}
    (c : GithubController.t) (fetched_at : datetime)
    (open_prs approved_prs : list PullRequest) :
  reachable c →
  GithubController.last_request c = Some (fetched_at, (open_prs, approved_prs)) →
  (∃ prs, (open_prs, approved_prs)
          = Pipeline.order_filter_prs (GithubController.user c) prs)
  ∧ (∀ pr, pr ∈ open_prs →
       is_draft pr = false
       ∧ utils.pr_is_approved pr (GithubController.user c) = false)
  ∧ (∀ pr, pr ∈ approved_prs →
       is_draft pr = false
       ∧ utils.pr_is_approved pr (GithubController.user c) = true).
Proof.
  intros Hreach Hentry.
  assert (Hprs : ∃ prs, (open_prs, approved_prs)
                        = Pipeline.order_filter_prs (GithubController.user c) prs).
  { revert fetched_at open_prs approved_prs Hentry.
    induction Hreach as [|c now w now' _ IH]; intros fetched_at open_prs approved_prs;
      [done|].
    destruct (get_prs_cases c now w now') as [-> [->|(prs & _ & ->)]].
    - apply IH.
    - intros Hstored. exists prs. congruence. }
  split; [done|]. destruct Hprs as [prs Hprs].
  assert (open_prs = (Pipeline.order_filter_prs (GithubController.user c) prs).1)
    as -> by by rewrite <- Hprs.
  assert (approved_prs = (Pipeline.order_filter_prs (GithubController.user c) prs).2)
    as -> by by rewrite <- Hprs.
  split; intros pr.
  - rewrite elem_of_open_prs. tauto.
  - rewrite elem_of_approved_prs. tauto.
Qed.

Lemma stored_pair_is_a_pipeline_output_witness :
  let c := GithubController.after
             (@GithubController.get_prs Scenario.strptime_instance
                Scenario.controller 5 Cases.two_repositories 7) in
  (∃ prs, ([Scenario.P3; Scenario.P1], [])
          = Pipeline.order_filter_prs (GithubController.user c) prs)
  ∧ (∀ pr, pr ∈ [Scenario.P3; Scenario.P1] →
       is_draft pr = false
       ∧ utils.pr_is_approved pr (GithubController.user c) = false)
  ∧ (∀ pr, pr ∈ [] →
       is_draft pr = false
       ∧ utils.pr_is_approved pr (GithubController.user c) = true).
Proof.
  intros c.
  apply (@stored_pair_is_a_pipeline_output Scenario.strptime_instance c 7
           [Scenario.P3; Scenario.P1] []).
  - apply reachable_get_prs, reachable_init.
  - reflexivity.
Defined.

(** X7. When [__get_prs] raises, [build_pr_items] returns one item and
    nothing else, whatever the type, the predicate and the button asked
    for: the title and the description of the error, the error icon, no
    action; the predicate is not called and the stored pair is not
    touched. *)
Theorem fetch_error_renders_one_item `{!Strptime}
    (c : GithubController.t) (pr_type : PrType)
    (predicate : option (PullRequest → option bool))
    (include_approved_button : bool)
    (now now' : datetime) (w : World) (e : GithubError) :
  GithubController.result (GithubController.get_prs c now w now') = inl e →
  let r := GithubController.build_pr_items c pr_type predicate
             include_approved_button now w now' in
  r.2 = Some [ {| name := "Error getting Pull Requests";
                  description :=
                    "Check you connectivity, github url and access token";
                  icon := ERROR_ICON;
                  on_enter := DoNothingAction;
                  on_alt_enter := None |} ]
  ∧ GithubController.last_request r.1 = GithubController.last_request c.
Proof.
  intros Hraised r. subst r. unfold GithubController.build_pr_items.
  rewrite Hraised. destruct (get_prs_raised _ _ _ _ _ Hraised) as [-> Hkept].
  by split.
Qed.

Lemma fetch_error_renders_one_item_witness :
  let r := @GithubController.build_pr_items Scenario.strptime_instance
             Scenario.controller APPROVED (Some (λ _, None)) true
             5 Scenario.offline 7 in
  r.2 = Some [ {| name := "Error getting Pull Requests";
                  description :=
                    "Check you connectivity, github url and access token";
                  icon := ERROR_ICON;
                  on_enter := DoNothingAction;
                  on_alt_enter := None |} ]
  ∧ GithubController.last_request r.1
    = GithubController.last_request Scenario.controller.
Proof.
  apply (@fetch_error_renders_one_item Scenario.strptime_instance
           Scenario.controller APPROVED (Some (λ _, None)) true
           5 7 Scenario.offline Github.error).
  reflexivity.
Defined.

(** ** The listeners *)
Section ListenerFacts.
Context `{!Strptime}.

Lemma extension_build_returned e pr_type predicate button now w now' prs :
  GithubController.result
    (GithubController.get_prs (GithubExtension.github_controller e) now w now')
  = inr prs →
  GithubExtension.build_pr_items e pr_type predicate button now w now'
  = ({| GithubExtension.github_controller :=
          GithubController.after
            (GithubController.get_prs (GithubExtension.github_controller e)
               now w now');
        GithubExtension.multiselect_urls := GithubExtension.multiselect_urls e;
        GithubExtension.multiselect_value := Some pr_type |},
     GithubController.items_of
       (GithubController.user (GithubExtension.github_controller e))
       pr_type predicate button prs).
Proof.
  intros Hprs.
  unfold GithubExtension.build_pr_items, GithubController.build_pr_items.
  by rewrite Hprs.
Qed.

Lemma items_of_everything me pr_type prs :
  GithubController.items_of me pr_type None false prs
  = Some (map (GithubController.pr_item me pr_type)
            (match pr_type with APPROVED => prs.2 | OPEN => prs.1 end)).
Proof.
  destruct prs as [open_prs approved_prs].
  unfold GithubController.items_of. by rewrite select_everything.
Qed.

Lemma items_of_not_selected me pr_type urls prs :
  GithubController.items_of me pr_type
    (Some (MultiselectEventListener.not_selected urls)) false prs
  = Some (map (GithubController.pr_item me pr_type)
            (List.filter (λ pr, negb (existsb (String.eqb (url pr)) urls))
               (match pr_type with APPROVED => prs.2 | OPEN => prs.1 end))).
Proof.
  destruct prs as [open_prs approved_prs].
  unfold GithubController.items_of.
  rewrite (select_returned _
             (λ pr, negb (existsb (String.eqb (url pr)) urls))).
  - done.
  - unfold MultiselectEventListener.not_selected. congruence.
  - intros pr _. by eexists.
Qed.

Lemma filter_all {A : Type} (f : A → bool) (l : list A) :
  Forall (λ x, f x = true) l → List.filter f l = l.
Proof. induction 1 as [|x l Hx _ IH]; simpl; [done|]. by rewrite Hx, IH. Qed.

Lemma filter_none {A : Type} (f : A → bool) (l : list A) :
  Forall (λ x, f x = false) l → List.filter f l = [].
Proof. induction 1 as [|x l Hx _ IH]; simpl; [done|]. by rewrite Hx. Qed.

Lemma icon_of_item me pr_type pr :
  icon (GithubController.pr_item me pr_type pr)
  = icon_of pr_type (Pipeline.is_own me pr).
Proof.
  unfold GithubController.pr_item, Pipeline.is_own. simpl.
  by destruct pr_type, (String.eqb (created_by pr) me).
Qed.

Lemma icons_of_one_kind me pr_type (own : bool) (l : list PullRequest) :
  Forall (λ pr, Pipeline.is_own me pr = own) l →
  map icon (map (GithubController.pr_item me pr_type) l)
  = replicate (length l) (icon_of pr_type own).
Proof.
  induction 1 as [|pr l Hpr _ IH]; [done|].
  cbn [map length replicate]. by rewrite IH, icon_of_item, Hpr.
Qed.
End ListenerFacts.

(** X8. [ApprovedPrsEventListener] never lets an exception out.  It ignores
    a [MULTISELECT] event; on [APPROVED_PRS], when [__get_prs] returns, it
    renders one item per approved pull request, in the stored order and
    without the button, leaves the selected URLs alone and leaves
    [APPROVED] on the [MULTISELECT] constant. *)
Theorem approved_view_lists_the_approved `{!Strptime}
    (e : GithubExtension.t) (now now' : datetime) (w : World) :
  let c := GithubExtension.github_controller e in
  (∀ event, (ApprovedPrsEventListener.on_event event e now w now').2 ≠ Raised)
  ∧ ApprovedPrsEventListener.on_event MULTISELECT e now w now' = (e, Ignored)
  ∧ ∀ open_prs approved_prs,
      GithubController.result (GithubController.get_prs c now w now')
      = inr (open_prs, approved_prs) →
      let r := ApprovedPrsEventListener.on_event APPROVED_PRS e now w now' in
      r.2 = Rendered (map (GithubController.pr_item (GithubController.user c)
                             APPROVED) approved_prs)
      ∧ GithubExtension.multiselect_value r.1 = Some APPROVED
      ∧ GithubExtension.multiselect_urls r.1 = GithubExtension.multiselect_urls e.
Proof.
  intros c. split_and!.
  - intros [|]; [done|]. unfold ApprovedPrsEventListener.on_event.
    cbn [snd]. unfold GithubExtension.build_pr_items. cbn [snd].
    unfold GithubController.build_pr_items.
    destruct (GithubController.result _) as [err|prs]; [done|].
    cbn [snd]. by rewrite items_of_everything.
  - done.
  - intros open_prs approved_prs Hprs r. subst r.
    unfold ApprovedPrsEventListener.on_event.
    rewrite (extension_build_returned _ _ _ _ _ _ _ _ Hprs).
    by rewrite items_of_everything.
Qed.

(** X9. In both views the items of the pull requests the user created come
    first: the icons of the rendered items are the user's icon of the view,
    once per own pull request in it, followed by the plain icon of the
    view, once per pull request of somebody else. *)
Theorem own_items_are_rendered_first
    (user : string) (prs : list PullRequest) (pr_type : PrType) :
  let lists := Pipeline.order_filter_prs user prs in
  let relevant := match pr_type with APPROVED => lists.2 | OPEN => lists.1 end in
  ∃ items,
    GithubController.items_of user pr_type None false lists = Some items
    ∧ map name items = map title relevant
    ∧ map icon items
      = replicate (length (List.filter (Pipeline.is_own user) relevant))
          (icon_of pr_type true)
        ++ replicate
             (length (List.filter (λ pr, negb (Pipeline.is_own user pr)) relevant))
             (icon_of pr_type false).
Proof.
  intros lists relevant. eexists. split; [apply items_of_everything|].
  fold relevant. split.
  - rewrite map_map. by apply map_ext.
  - assert (Hsplit : ∃ f, relevant
                          = List.filter f (Pipeline.ordered_prs user prs)).
    { subst relevant lists. destruct pr_type.
      - eexists. apply order_filter_prs_open.
      - eexists. apply order_filter_prs_approved. }
    destruct Hsplit as [f ->].
    rewrite ordered_prs_split. cbv zeta.
    set (by_date := list_sort created_at true _).
    rewrite !List.filter_app, !map_app.
    set (own := List.filter f (List.filter (Pipeline.is_own user) by_date)).
    set (others :=
           List.filter f (List.filter (λ pr, negb (Pipeline.is_own user pr)) by_date)).
    assert (Hown : Forall (λ pr, Pipeline.is_own user pr = true) own).
    { apply Forall_forall. intros pr Hpr. subst own.
      by apply filter_elem_of in Hpr as [[_ ?]%filter_elem_of _]. }
    assert (Hothers : Forall (λ pr, Pipeline.is_own user pr = false) others).
    { apply Forall_forall. intros pr Hpr. subst others.
      apply filter_elem_of in Hpr as [[_ ?]%filter_elem_of _].
      by apply negb_true_iff. }
    rewrite (filter_all _ own Hown), (filter_none _ others Hothers), app_nil_r.
    rewrite (filter_none (λ pr, negb (Pipeline.is_own user pr)) own),
      (filter_all (λ pr, negb (Pipeline.is_own user pr)) others).
    + by rewrite (icons_of_one_kind _ _ true own Hown),
        (icons_of_one_kind _ _ false others Hothers).
    + eapply Forall_impl; [exact Hothers|]. by intros pr ->.
    + eapply Forall_impl; [exact Hown|]. by intros pr ->.
Qed.

Section MultiselectFacts.
Context `{!Strptime}.

Lemma multiselect_rendered (e : GithubExtension.t) selected pr_type now w now'
    open_prs approved_prs :
  GithubExtension.multiselect_value e = Some pr_type →
  GithubController.result
    (GithubController.get_prs (GithubExtension.github_controller e) now w now')
  = inr (open_prs, approved_prs) →
  let urls := GithubExtension.multiselect_urls e ++ [selected] in
  MultiselectEventListener.on_event MULTISELECT (Some selected) e now w now'
  = ({| GithubExtension.github_controller :=
          GithubController.after
            (GithubController.get_prs (GithubExtension.github_controller e)
               now w now');
        GithubExtension.multiselect_urls := urls;
        GithubExtension.multiselect_value := Some pr_type |},
     Rendered
       (MultiselectEventListener.open_all urls,
        map (GithubController.pr_item
               (GithubController.user (GithubExtension.github_controller e))
               pr_type)
          (List.filter (λ pr, negb (existsb (String.eqb (url pr)) urls))
             (match pr_type with APPROVED => approved_prs | OPEN => open_prs end)))).
Proof.
  intros Hvalue Hprs urls.
  unfold MultiselectEventListener.on_event.
  cbn [GithubExtension.multiselect_value]. rewrite Hvalue.
  rewrite (extension_build_returned _ _ _ _ _ _ _ (open_prs, approved_prs));
    [|done].
  cbn [GithubExtension.github_controller GithubExtension.multiselect_urls fst snd].
  by rewrite items_of_not_selected.
Qed.
End MultiselectFacts.

(** X10. [MultiselectEventListener] on a [MULTISELECT] event for [selected],
    when the [MULTISELECT] constant holds a view and [__get_prs] returns:
    the URL is appended to the selected ones; the first item opens all the
    selected URLs, in the order they were selected; after it come the
    items of the pull requests of that view whose URL is not selected, in
    the stored order, so that no item rendered opens a selected URL. *)
Theorem multiselect_opens_all_and_hides_selected `{!Strptime}
    (e : GithubExtension.t) (selected : string) (pr_type : PrType)
    (now now' : datetime) (w : World)
    (open_prs approved_prs : list PullRequest) :
  let c := GithubExtension.github_controller e in
  GithubExtension.multiselect_value e = Some pr_type →
  GithubController.result (GithubController.get_prs c now w now')
  = inr (open_prs, approved_prs) →
  let urls := GithubExtension.multiselect_urls e ++ [selected] in
  let relevant :=
    match pr_type with APPROVED => approved_prs | OPEN => open_prs end in
  let r := MultiselectEventListener.on_event MULTISELECT (Some selected) e
             now w now' in
  GithubExtension.multiselect_urls r.1 = urls
  ∧ ∃ first items,
      r.2 = Rendered (first, items)
      ∧ open_actions first = map OpenUrlAction urls
      ∧ open_name first
        = "Open " +:+ pretty (S (length (GithubExtension.multiselect_urls e)))
          +:+ " Pull Requests"
      ∧ items
        = map (GithubController.pr_item (GithubController.user c) pr_type)
            (List.filter (λ pr, negb (existsb (String.eqb (url pr)) urls)) relevant)
      ∧ ∀ item target,
          item ∈ items → on_enter item = OpenUrlAction target → target ∉ urls.
Proof.
  intros c Hvalue Hprs urls relevant r. subst r.
  rewrite (multiselect_rendered _ _ _ _ _ _ _ _ Hvalue Hprs). cbn [fst snd].
  fold c urls relevant.
  split; [done|]. do 2 eexists. split_and!; try done.
  - unfold MultiselectEventListener.open_all. cbn [open_name].
    subst urls. rewrite length_app. simpl. by rewrite Nat.add_1_r.
  - intros item target Hitem Henter Hsel.
    apply list_elem_of_In, in_map_iff in Hitem as (pr & <- & Hpr).
    apply filter_In in Hpr as [_ Hpr]. apply negb_true_iff in Hpr.
    injection Henter as <-.
    assert (existsb (String.eqb (url pr)) urls = true); [|congruence].
    apply existsb_exists. exists (url pr).
    split; [by apply list_elem_of_In | apply String.eqb_refl].
Qed.

(** X11. A keyword query empties the selected URLs and, when [__get_prs]
    returns, leaves [OPEN] on the [MULTISELECT] constant, also when the
    search raises afterwards.  A [MULTISELECT] event that follows opens the
    one URL it selects and lists the open pull requests but that one. *)
Theorem selection_starts_over_with_a_query `{!Strptime} `{!ReSearch}
    (argument : option string) (e : GithubExtension.t) (selected : string)
    (now1 now1' now2 now2' : datetime) (w1 w2 : World)
    (lists1 : GithubController.snapshot)
    (open_prs approved_prs : list PullRequest) :
  let r1 := GithubExtension.keyword_query_on_event argument e now1 w1 now1' in
  GithubController.result
    (GithubController.get_prs (GithubExtension.github_controller e) now1 w1 now1')
  = inr lists1 →
  GithubController.result
    (GithubController.get_prs (GithubExtension.github_controller r1.1)
       now2 w2 now2')
  = inr (open_prs, approved_prs) →
  GithubExtension.multiselect_urls r1.1 = []
  ∧ GithubExtension.multiselect_value r1.1 = Some OPEN
  ∧ (MultiselectEventListener.on_event MULTISELECT (Some selected) r1.1
       now2 w2 now2').2
    = Rendered
        (MultiselectEventListener.open_all [selected],
         map (GithubController.pr_item
                (GithubController.user (GithubExtension.github_controller e)) OPEN)
           (List.filter (λ pr, negb (String.eqb (url pr) selected)) open_prs)).
Proof.
  intros r1 Hprs1 Hprs2.
  assert (Hr1 : r1.1
                = {| GithubExtension.github_controller :=
                       GithubController.after
                         (GithubController.get_prs
                            (GithubExtension.github_controller e) now1 w1 now1');
                     GithubExtension.multiselect_urls := [];
                     GithubExtension.multiselect_value := Some OPEN |}).
  { subst r1. unfold GithubExtension.keyword_query_on_event. cbn [fst].
    by rewrite (extension_build_returned _ _ _ _ _ _ _ lists1). }
  rewrite Hr1 in Hprs2 |- *. split_and!; [done|done|].
  erewrite (multiselect_rendered _ selected OPEN); [|reflexivity|exact Hprs2].
  cbn [GithubExtension.multiselect_urls GithubExtension.github_controller
       app fst snd].
  destruct (get_prs_cases (GithubExtension.github_controller e) now1 w1 now1')
    as [-> _].
  do 3 f_equal. apply filter_ext. intros pr. simpl. by rewrite orb_false_r.
Qed.

Section OnTheCases.
#[local] Existing Instance Scenario.strptime_instance.
#[local] Existing Instance Scenario.re_search_instance.

Lemma multiselect_opens_all_and_hides_selected_witness :
  let urls := ["https://h/o/svc/pull/1"; "https://h/o/web/pull/4"] in
  let r := MultiselectEventListener.on_event MULTISELECT
             (Some "https://h/o/web/pull/4") Cases.extension
             (Scenario.t0 + 1) Scenario.offline (Scenario.t0 + 2) in
  GithubExtension.multiselect_urls r.1 = urls
  ∧ ∃ first items,
      r.2 = Rendered (first, items)
      ∧ open_actions first = map OpenUrlAction urls
      ∧ open_name first = "Open " +:+ pretty 2%nat +:+ " Pull Requests"
      ∧ items
        = map (GithubController.pr_item "alice" OPEN)
            (List.filter (λ pr, negb (existsb (String.eqb (url pr)) urls))
               [Scenario.P3; Scenario.P1])
      ∧ ∀ item target,
          item ∈ items → on_enter item = OpenUrlAction target → target ∉ urls.
Proof.
  apply (multiselect_opens_all_and_hides_selected Cases.extension
           "https://h/o/web/pull/4" OPEN (Scenario.t0 + 1) (Scenario.t0 + 2)
           Scenario.offline [Scenario.P3; Scenario.P1] [Scenario.P2; Scenario.P4]).
  - reflexivity.
  - reflexivity.
Defined.

Lemma selection_starts_over_with_a_query_witness :
  let r1 := GithubExtension.keyword_query_on_event (Some "(") Cases.extension
              (Scenario.t0 + 1) Scenario.offline (Scenario.t0 + 2) in
  GithubExtension.multiselect_urls r1.1 = []
  ∧ GithubExtension.multiselect_value r1.1 = Some OPEN
  ∧ (MultiselectEventListener.on_event MULTISELECT
       (Some "https://h/o/web/pull/3") r1.1
       (Scenario.t0 + 3) Scenario.offline (Scenario.t0 + 4)).2
    = Rendered
        (MultiselectEventListener.open_all ["https://h/o/web/pull/3"],
         map (GithubController.pr_item "alice" OPEN)
           (List.filter
              (λ pr, negb (String.eqb (url pr) "https://h/o/web/pull/3"))
              [Scenario.P3; Scenario.P1])).
Proof.
  apply (selection_starts_over_with_a_query (Some "(") Cases.extension
           "https://h/o/web/pull/3"
           (Scenario.t0 + 1) (Scenario.t0 + 2) (Scenario.t0 + 3) (Scenario.t0 + 4)
           Scenario.offline Scenario.offline
           ([Scenario.P3; Scenario.P1], [Scenario.P2; Scenario.P4])
           [Scenario.P3; Scenario.P1] [Scenario.P2; Scenario.P4]).
  - reflexivity.
  - reflexivity.
Defined.

End OnTheCases.

(** ** The preferences *)
Section PreferencesFacts.

Lemma assoc_setitem_is_Some {V : Type} k id (v : V) d :
  is_Some (assoc k (dict_setitem id v d)) ↔ k = id ∨ is_Some (assoc k d).
Proof.
  destruct (decide (id = k)) as [->|Hne].
  - rewrite assoc_setitem_eq. split; [by left | by eexists].
  - rewrite assoc_setitem_ne by done. split; [by right|].
    intros [?|?]; [congruence|done].
Qed.

Lemma controller_of_is_Some preferences :
  is_Some (PreferencesEventListener.controller_of preferences)
  ↔ Forall (λ k, is_Some (assoc k preferences))
      ["hostname"; "org"; "access_token"; "user"].
Proof.
  unfold PreferencesEventListener.controller_of.
  rewrite !Forall_cons, Forall_nil.
  destruct (assoc "hostname" preferences) as [hostname|]; simpl;
    [|split; [intros [? [=]] | intros ([? [=]] & _)]].
  destruct (assoc "org" preferences) as [org|]; simpl;
    [|split; [intros [? [=]] | intros (_ & [? [=]] & _)]].
  destruct (assoc "access_token" preferences) as [access_token|]; simpl;
    [|split; [intros [? [=]] | intros (_ & _ & [? [=]] & _)]].
  destruct (assoc "user" preferences) as [user|]; simpl;
    [|split; [intros [? [=]] | intros (_ & _ & _ & [? [=]] & _)]].
  split; [intros _|intros _; by eexists].
  split_and!; by eexists.
Qed.
End PreferencesFacts.

(** X12. A preference update makes a controller exactly when, the updated
    key aside, the four preferences are there; the controller has nothing
    stored and no list of repositories, its user is the updated value when
    the key is ["user"] and the old one otherwise, and its first
    [__get_prs] calls [github_client.get_prs], at any time. *)
Theorem preference_update_starts_afresh `{!Strptime}
    (extension_preferences : list (string * string)) (id new_value : string) :
  (is_Some (PreferencesUpdateEventListener.on_event
              extension_preferences id new_value)
   ↔ Forall (λ k, k = id ∨ is_Some (assoc k extension_preferences))
       ["hostname"; "org"; "access_token"; "user"])
  ∧ ∀ c,
      PreferencesUpdateEventListener.on_event extension_preferences id new_value
      = Some c →
      GithubController.last_request c = None
      ∧ Github.repos (GithubController.github_client c) = JNull
      ∧ (id = "user" → GithubController.user c = new_value)
      ∧ (id ≠ "user" →
         assoc "user" extension_preferences = Some (GithubController.user c))
      ∧ ∀ now w now',
          GithubController.fetches (GithubController.get_prs c now w now')
          = 1%nat.
Proof.
  unfold PreferencesUpdateEventListener.on_event. split.
  - rewrite controller_of_is_Some. apply Forall_iff. intros k.
    apply assoc_setitem_is_Some.
  - intros c Hc. unfold PreferencesEventListener.controller_of in Hc.
    destruct (assoc "hostname" _) as [hostname|]; [|done].
    destruct (assoc "org" _) as [org|]; [|done].
    destruct (assoc "access_token" _) as [access_token|]; [|done].
    destruct (assoc "user" _) as [user|] eqn:Huser; [|done].
    injection Hc as <-. split_and!; try done.
    + intros ->. rewrite assoc_setitem_eq in Huser. by injection Huser as <-.
    + intros Hne. by rewrite assoc_setitem_ne in Huser.
    + intros now w now'. rewrite get_prs_stale by done.
      apply fetch_prs_fetches_once.
Qed.

Lemma preference_update_starts_afresh_witness :
  ∃ c,
    PreferencesUpdateEventListener.on_event Cases.preferences "user" "bob"
    = Some c
    ∧ GithubController.last_request c = None
    ∧ Github.repos (GithubController.github_client c) = JNull
    ∧ ("user" = "user" → GithubController.user c = "bob")
    ∧ ("user" ≠ "user" →
       assoc "user" Cases.preferences = Some (GithubController.user c))
    ∧ ∀ now w now',
        GithubController.fetches
          (@GithubController.get_prs Scenario.strptime_instance c now w now')
        = 1%nat.
Proof.
  eexists. split; [reflexivity|].
  apply (proj2 (@preference_update_starts_afresh Scenario.strptime_instance
                  Cases.preferences "user" "bob")).
  reflexivity.
Defined.

(** ** What the order of the fetched list does not change *)
Section OrderFacts.
Context {A : Type} (key : A → Z).

Lemma filter_Permutation_bool (f : A → bool) (l1 l2 : list A) :
  l1 ≡ₚ l2 → List.filter f l1 ≡ₚ List.filter f l2.
Proof.
  induction 1 as [|x l1 l2 _ IH|x y l|l1 l2 l3 _ IH1 _ IH2]; simpl.
  - done.
  - destruct (f x); by rewrite IH.
  - destruct (f x), (f y); by try apply Permutation_swap.
  - by rewrite IH1.
Qed.

Lemma same_key_same_element (l : list A) x y :
  NoDup (key <$> l) → x ∈ l → y ∈ l → key x = key y → x = y.
Proof.
  induction l as [|a l IH]; [by intros _ ?%elem_of_nil|].
  rewrite fmap_cons, NoDup_cons.
  intros [Ha Hl] [->|Hx]%elem_of_cons [->|Hy]%elem_of_cons Hkey; [done| | |by apply IH].
  - destruct Ha. rewrite Hkey. by apply list_elem_of_fmap_2.
  - destruct Ha. rewrite <- Hkey. by apply list_elem_of_fmap_2.
Qed.

Lemma sort_stable_of_permutation (l1 l2 : list A) :
  l1 ≡ₚ l2 → NoDup (key <$> l1) → sort_stable key l1 = sort_stable key l2.
Proof.
  intros Hperm Hkeys.
  apply (StronglySorted_unique_strong (ascending key)).
  - intros x1 x2 Hx1 Hx2 H12 H21.
    rewrite sort_stable_perm in Hx1. rewrite sort_stable_perm, <- Hperm in Hx2.
    apply (same_key_same_element l1); try done.
    unfold ascending in *. lia.
  - apply sort_stable_sorted.
  - apply sort_stable_sorted.
  - by rewrite !sort_stable_perm.
Qed.

Lemma list_sort_of_permutation reverse (l1 l2 : list A) :
  l1 ≡ₚ l2 → NoDup (key <$> l1) →
  list_sort key reverse l1 = list_sort key reverse l2.
Proof.
  intros Hperm Hkeys. destruct reverse; simpl;
    [f_equal|]; apply sort_stable_of_permutation; try done.
  - by rewrite <- !Permutation_rev.
  - by rewrite <- Permutation_rev.
Qed.
End OrderFacts.

(** X13. The two lists do not depend on the order in which the records
    were fetched, as long as no two non-draft records were created at the
    same time: two fetched lists with the same records give the same open
    list and the same approved list. *)
Theorem lists_do_not_depend_on_fetch_order
    (user : string) (prs prs' : list PullRequest) :
  prs ≡ₚ prs' →
  NoDup (created_at <$> List.filter Pipeline.not_draft prs) →
  Pipeline.order_filter_prs user prs = Pipeline.order_filter_prs user prs'.
Proof.
  intros Hperm Hdates.
  unfold Pipeline.order_filter_prs, Pipeline.ordered_prs.
  by rewrite (list_sort_of_permutation created_at true
                (List.filter Pipeline.not_draft prs)
                (List.filter Pipeline.not_draft prs')
                (filter_Permutation_bool _ _ _ Hperm) Hdates).
Qed.

Lemma lists_do_not_depend_on_fetch_order_witness :
  Pipeline.order_filter_prs "alice" [Scenario.P2; Scenario.P4; Scenario.P5]
  = Pipeline.order_filter_prs "alice" [Scenario.P5; Scenario.P4; Scenario.P2].
Proof.
  apply (lists_do_not_depend_on_fetch_order "alice"
           [Scenario.P2; Scenario.P4; Scenario.P5]
           [Scenario.P5; Scenario.P4; Scenario.P2]).
  - apply (Permutation_rev [Scenario.P2; Scenario.P4; Scenario.P5]).
  - refine (bool_decide_unpack _ _). vm_compute. exact I.
Defined.

(** Records created at the same time keep the order of the fetched list,
    so that the hypothesis on the dates cannot be dropped. *)
Example lists_depend_on_fetch_order_of_ties :
  Pipeline.order_filter_prs "carol" [Scenario.P1; Scenario.P3]
  ≠ Pipeline.order_filter_prs "carol" [Scenario.P3; Scenario.P1].
Proof. discriminate. Qed.

Lemma assoc_elem_of {V : Type} k (v : V) d : assoc k d = Some v → (k, v) ∈ d.
Proof.
  induction d as [|[k' v'] d IH]; [done|]. simpl.
  destruct (String.eqb_spec k' k) as [->|?].
  - intros [= ->]. constructor.
  - intros ?. constructor. by apply IH.
Qed.

(** X14. A pull request of a repository that [__build_pr] can build is not
    lost by [__fetch_prs]: when the listing of the pull requests is read,
    every started process is joined once, and the entries of the listing
    that are built under the key of this one are built to the same record,
    the record is in what the process of the repository writes. *)
Theorem buildable_pull_requests_are_returned `{!Strptime}
    (w : World) (repo_url pulls payload : Json) (payloads : list Json)
    (pr_key : string) (pr : PullRequest) :
  (∀ (A : Type) (l : list A), completion w A l ≡ₚ l) →
  Github.get_under w repo_url "/pulls" = Some pulls →
  iter_json pulls = Some payloads →
  payload ∈ payloads →
  Github.build_pr w payload = Some (pr_key, pr) →
  (∀ payload' pr', payload' ∈ payloads →
     Github.build_pr w payload' = Some (pr_key, pr') → pr' = pr) →
  ∃ key prs, Github.fetch_prs w repo_url = Some (key, prs) ∧ pr ∈ prs.
Proof.
  intros Hjoin Hpulls Hiter Hin Hbuilt Hsame.
  unfold Github.fetch_prs. rewrite Hpulls. cbn [mbind option_bind].
  rewrite Hiter. cbn [mbind option_bind].
  unfold Github.get_under in Hpulls.
  destruct (as_str repo_url) as [key|]; [|done]. cbn [mbind option_bind].
  exists key, (dict_values (run_processes w (Github.build_pr w) payloads)).
  split; [done|].
  set (shared := run_processes w (Github.build_pr w) payloads).
  assert (Hkey : is_Some (assoc pr_key shared)).
  { apply assoc_is_Some. subst shared. unfold run_processes.
    apply foldl_writes_keys. right. exists payload, pr.
    by rewrite (Hjoin Json payloads). }
  destruct Hkey as [pr' Hentry%assoc_elem_of].
  assert (pr' = pr) as ->.
  { subst shared. unfold run_processes in Hentry.
    apply foldl_writes_elem in Hentry
      as [?%elem_of_nil|(payload' & Hin' & Hbuilt')]; [done|].
    rewrite (Hjoin Json payloads) in Hin'. by apply (Hsame payload'). }
  unfold dict_values. apply list_elem_of_In, in_map_iff.
  exists (pr_key, pr). split; [done|]. by apply list_elem_of_In.
Qed.

Lemma buildable_pull_requests_are_returned_witness :
  ∃ key prs,
    @Github.fetch_prs Scenario.strptime_instance Cases.two_repositories
      (JStr (Scenario.api +:+ "/repos/o/web")) = Some (key, prs)
    ∧ Scenario.P3 ∈ prs.
Proof.
  apply (@buildable_pull_requests_are_returned Scenario.strptime_instance
           Cases.two_repositories (JStr (Scenario.api +:+ "/repos/o/web"))
           (JArr Cases.web_payloads)
           (Scenario.pull_payload "web" "Bump deps" "3" "alice"
              "2023-11-14T21:13:20Z" false)
           Cases.web_payloads Scenario.pull_3 Scenario.P3).
  - intros A l. reflexivity.
  - reflexivity.
  - reflexivity.
  - constructor.
  - reflexivity.
  - intros payload' pr' Hin.
    apply list_elem_of_In in Hin. destruct Hin as [<-|[<-|[]]].
    + intros [= <-]. reflexivity.
    + discriminate.
Defined.
